(** * Best Agent API: the status engine, the day counter and the phone normaliser

    A shallow embedding of the pure part of [src/api.js]:
    [daysUntilDate], [cleanPhone], [isPhoneSchedulingPackage], the record
    built by [getPackageFromDestsel] and [determineStatus].

    Conventions of the embedding.
    - A field of a JSON record that may be [null], [undefined] or missing is
      an [option]; [None] stands for all three, which the code never tells
      apart (it only tests truthiness, [|| 0] and [=== 'CONFIRM']).
    - Amounts and time values are JavaScript numbers holding integers; they
      are [Z] here.  Sums, differences and comparisons of such numbers are
      exact below 2^53, and the quotient by 86400000 followed by [Math.ceil]
      agrees with the exact ceiling for differences below 2^27 days.
    - A number that may be [NaN] is a [JsNum].
    - Strings are sequences of ASCII characters.
    - [new Date()] reads the clock: the reading is the explicit input [now].
      The process time zone and [Date.parse] are inputs as well.
    - [console.log] lines are not part of the model. *)

From Stdlib Require Import ZArith String Ascii List Bool Lia.
From Stdlib Require Import DecimalString Sorted Permutation.
Import ListNotations.
Open Scope string_scope.
Open Scope Z_scope.

(** ** JavaScript values used by the code *)

Module Js.

(** A JavaScript number that holds an integer, or NaN. *)
Inductive JsNum : Type :=
| NaN : JsNum
| Num : Z -> JsNum.

(** Truthiness of a string-valued field: [null], [undefined] and [''] are
    falsy. *)
Definition truthy_str (v : option string) : bool :=
  match v with
  | None => false
  | Some s => negb (String.eqb s "")
  end.

(** Truthiness of a number-valued field: [null], [undefined] and [0] are
    falsy. *)
Definition truthy_num (v : option Z) : bool :=
  match v with
  | None => false
  | Some z => negb (z =? 0)
  end.

(** [v || 0] on a number-valued field. *)
Definition or_zero (v : option Z) : Z :=
  match v with
  | None => 0
  | Some z => z
  end.

(** [v > 0] on a number-valued field: [null] converts to 0 and [undefined]
    to NaN, neither of which is above 0. *)
Definition field_gt0 (v : option Z) : bool :=
  match v with
  | None => false
  | Some z => z >? 0
  end.

(** [ToNumber] of a value that is [null] or a number. *)
Definition ToNumber (v : option JsNum) : JsNum :=
  match v with
  | None => Num 0
  | Some n => n
  end.

(** The relational operators against an integer literal; every comparison
    with NaN is false. *)
Definition lt (x : JsNum) (k : Z) : bool :=
  match x with NaN => false | Num z => z <? k end.
Definition le (x : JsNum) (k : Z) : bool :=
  match x with NaN => false | Num z => z <=? k end.
Definition gt (x : JsNum) (k : Z) : bool :=
  match x with NaN => false | Num z => z >? k end.

(** [v !== null] *)
Definition not_null {A : Type} (v : option A) : bool :=
  match v with None => false | Some _ => true end.

(** [v === lit] on a string-valued field. *)
Definition strict_eq_str (v : option string) (lit : string) : bool :=
  match v with
  | None => false
  | Some s => String.eqb s lit
  end.

(** [v !== true] on a boolean-valued field. *)
Definition not_true (v : option bool) : bool :=
  match v with
  | Some true => false
  | _ => true
  end.

(** *** String methods *)

Definition is_upper_target (c : ascii) : bool :=
  let n := nat_of_ascii c in (97 <=? n)%nat && (n <=? 122)%nat.

Definition upper_char (c : ascii) : ascii :=
  if is_upper_target c then ascii_of_nat (nat_of_ascii c - 32) else c.

(** [s.toUpperCase()], on the letters a to z. *)
Fixpoint toUpperCase (s : string) : string :=
  match s with
  | EmptyString => EmptyString
  | String c r => String (upper_char c) (toUpperCase r)
  end.

(** [s.startsWith(p)] *)
Fixpoint startsWith (s p : string) : bool :=
  match p with
  | EmptyString => true
  | String c p' =>
      match s with
      | EmptyString => false
      | String d s' => Ascii.eqb d c && startsWith s' p'
      end
  end.

(** White space removed by [trim]: tab, line feed, vertical tab, form feed,
    carriage return and space. *)
Definition is_ws (c : ascii) : bool :=
  let n := nat_of_ascii c in
  ((9 <=? n)%nat && (n <=? 13)%nat) || (n =? 32)%nat.

Fixpoint trimStart (s : string) : string :=
  match s with
  | EmptyString => EmptyString
  | String c r => if is_ws c then trimStart r else s
  end.

Fixpoint trimEnd (s : string) : string :=
  match s with
  | EmptyString => EmptyString
  | String c r =>
      let r' := trimEnd r in
      if is_ws c && String.eqb r' "" then EmptyString else String c r'
  end.

(** [s.trim()] *)
Definition trim (s : string) : string := trimEnd (trimStart s).

(** [s.substring(1)] *)
Definition substring1 (s : string) : string :=
  match s with
  | EmptyString => EmptyString
  | String _ r => r
  end.

(** [arr.includes(x)] on an array of strings. *)
Fixpoint includes (arr : list string) (x : string) : bool :=
  match arr with
  | [] => false
  | y :: r => String.eqb y x || includes r x
  end.

End Js.

(** ** Phone normaliser *)

Module Phone.

(** A character matched by the class [\d]. *)
Definition is_digit (c : ascii) : bool :=
  let n := nat_of_ascii c in (48 <=? n)%nat && (n <=? 57)%nat.

(** [phone.replace(/\D/g, '')] *)
Fixpoint strip_non_digits (s : string) : string :=
  match s with
  | EmptyString => EmptyString
  | String c r =>
      if is_digit c then String c (strip_non_digits r)
      else strip_non_digits r
  end.

Definition cleanPhone (phone : option string) : string :=
  if negb (Js.truthy_str phone) then ""
  else
    let cleaned := strip_non_digits (match phone with Some s => s | None => "" end) in
    if (Nat.eqb (String.length cleaned) 11) && Js.startsWith cleaned "1"
    then Js.substring1 cleaned
    else cleaned.

End Phone.

(** ** Dates: the part of the ECMAScript Date object the code uses *)

Module Clock.

Definition msPerDay : Z := 86400000.
Definition msPerHour : Z := 3600000.

(** The process time zone: [LocalTZA tz t true] is the offset of local time
    from UTC, in milliseconds, at the UTC instant [t]; [LocalTZA tz t false]
    is the offset that applies to the local time value [t]. *)
Record TimeZone : Type := { LocalTZA : Z -> bool -> Z }.

(** What the runtime supplies to a call: the zone, the parser behind
    [new Date(string)] ([None] is an invalid date) and the clock reading
    returned by [new Date()]. *)
Record Env : Type := {
  zone : TimeZone;
  Date_parse : string -> option Z;
  now : Z
}.

Definition Day (t : Z) : Z := t / msPerDay.
Definition LocalTime (tz : TimeZone) (t : Z) : Z := t + LocalTZA tz t true.
Definition UTC (tz : TimeZone) (t : Z) : Z := t - LocalTZA tz t false.

(** A time value outside +-8.64e15 ms becomes NaN. *)
Definition TimeClip (t : Z) : option Z :=
  if Z.abs t <=? 8640000000000000 then Some t else None.

(** [d.setHours(0, 0, 0, 0)] on the time value of [d]: local midnight of the
    local day of [d], as a UTC time value. *)
Definition setHours0 (tz : TimeZone) (t : option Z) : option Z :=
  match t with
  | None => None
  | Some t => TimeClip (UTC tz (Day (LocalTime tz t) * msPerDay))
  end.

(** [new Date(dateString)] *)
Definition new_Date (env : Env) (dateString : string) : option Z :=
  match Date_parse env dateString with
  | None => None
  | Some t => TimeClip t
  end.

(** [Math.ceil(a / b)] for integers [a] and [b > 0]. *)
Definition ceil_div (a b : Z) : Z := - ((- a) / b).

(** [Math.ceil((target - now) / (1000 * 60 * 60 * 24))] *)
Definition ceil_days (target now : option Z) : Js.JsNum :=
  match target, now with
  | Some t, Some n => Js.Num (ceil_div (t - n) (1000 * 60 * 60 * 24))
  | _, _ => Js.NaN
  end.

Definition daysUntilDate (env : Env) (dateString : option string)
  : option Js.JsNum :=
  match dateString with
  | None => None
  | Some s =>
      if negb (Js.truthy_str dateString) then None
      else
        let target := new_Date env s in
        let now := Some (now env) in
        let now := setHours0 (zone env) now in
        let target := setHours0 (zone env) target in
        Some (ceil_days target now)
  end.

(** *** Concrete runtimes, used to evaluate the code on examples *)

(** Days from 1970-01-01 to the civil date [y]-[m]-[d]. *)
Definition days_from_civil (y m d : Z) : Z :=
  let y' := if m <=? 2 then y - 1 else y in
  let era := y' / 400 in
  let yoe := y' - era * 400 in
  let mp := (m + 9) mod 12 in
  let doy := (153 * mp + 2) / 5 + d - 1 in
  let doe := yoe * 365 + yoe / 4 - yoe / 100 + doy in
  era * 146097 + doe - 719468.

Definition is_leap (y : Z) : bool :=
  ((y mod 4 =? 0) && negb (y mod 100 =? 0)) || (y mod 400 =? 0).

Definition days_in_month (y m : Z) : Z :=
  if m =? 2 then (if is_leap y then 29 else 28)
  else if (m =? 4) || (m =? 6) || (m =? 9) || (m =? 11) then 30
  else 31.

Definition digit_val (c : ascii) : option Z :=
  let n := nat_of_ascii c in
  if (48 <=? n)%nat && (n <=? 57)%nat then Some (Z.of_nat n - 48) else None.

Fixpoint digits_val (acc : Z) (l : list ascii) : option Z :=
  match l with
  | [] => Some acc
  | c :: r =>
      match digit_val c with
      | None => None
      | Some v => digits_val (10 * acc + v) r
      end
  end.

(** The time value of a civil date and time of day, read as UTC. *)
Definition civil_ms (y m d hh mi ss : Z) : Z :=
  days_from_civil y m d * msPerDay + hh * msPerHour + mi * 60000 + ss * 1000.

Definition parse_date_fields (y1 y2 y3 y4 s1 m1 m2 s2 d1 d2 : ascii)
  : option (Z * Z * Z) :=
  if Ascii.eqb s1 "-" && Ascii.eqb s2 "-" then
    match digits_val 0 [y1; y2; y3; y4], digits_val 0 [m1; m2],
          digits_val 0 [d1; d2] with
    | Some y, Some m, Some d =>
        if (1 <=? m) && (m <=? 12) && (1 <=? d) && (d <=? days_in_month y m)
        then Some (y, m, d) else None
    | _, _, _ => None
    end
  else None.

Definition parse_time_fields (h1 h2 s1 m1 m2 s2 c1 c2 : ascii)
  : option (Z * Z * Z) :=
  if Ascii.eqb s1 ":" && Ascii.eqb s2 ":" then
    match digits_val 0 [h1; h2], digits_val 0 [m1; m2],
          digits_val 0 [c1; c2] with
    | Some hh, Some mi, Some ss =>
        if (hh <=? 23) && (mi <=? 59) && (ss <=? 59)
        then Some (hh, mi, ss) else None
    | _, _, _ => None
    end
  else None.

(** [Date.parse] on the two ISO forms the data store produces: the
    date-only form [YYYY-MM-DD] is read as UTC midnight, the form
    [YYYY-MM-DDTHH:mm:ss] without an offset as local time.  What the
    runtime answers on other strings depends on the engine; this instance
    answers [None] there and is evaluated on these two forms only. *)
Definition parse_iso (tz : TimeZone) (s : string) : option Z :=
  match list_ascii_of_string s with
  | [y1; y2; y3; y4; s1; m1; m2; s2; d1; d2] =>
      match parse_date_fields y1 y2 y3 y4 s1 m1 m2 s2 d1 d2 with
      | Some (y, m, d) => Some (civil_ms y m d 0 0 0)
      | None => None
      end
  | [y1; y2; y3; y4; s1; m1; m2; s2; d1; d2; t; h1; h2; s3; n1; n2; s4; c1; c2] =>
      if Ascii.eqb t "T" then
        match parse_date_fields y1 y2 y3 y4 s1 m1 m2 s2 d1 d2,
              parse_time_fields h1 h2 s3 n1 n2 s4 c1 c2 with
        | Some (y, m, d), Some (hh, mi, ss) =>
            Some (UTC tz (civil_ms y m d hh mi ss))
        | _, _ => None
        end
      else None
  | _ => None
  end.

(** A process running in UTC. *)
Definition utc_zone : TimeZone := {| LocalTZA := fun _ _ => 0 |}.

(** A process running in America/Los_Angeles, for instants of the year
    2026: daylight time (UTC-7) from 8 March 02:00 local to 1 November
    02:00 local, standard time (UTC-8) otherwise.  A local time value that
    is skipped or repeated at a transition takes the offset in force before
    the transition. *)
Definition los_angeles_2026 : TimeZone :=
  {| LocalTZA := fun t isUTC =>
       let lo := if isUTC then civil_ms 2026 3 8 10 0 0
                 else civil_ms 2026 3 8 3 0 0 in
       let hi := if isUTC then civil_ms 2026 11 1 9 0 0
                 else civil_ms 2026 11 1 2 0 0 in
       if (lo <=? t) && (t <? hi) then - 7 * msPerHour else - 8 * msPerHour |}.

(** The runtime of a process in zone [tz] whose clock reads [t]. *)
Definition runtime (tz : TimeZone) (t : Z) : Env :=
  {| zone := tz; Date_parse := parse_iso tz; now := t |}.

End Clock.

(** ** Package lookup: the record built by [getPackageFromDestsel] *)

Module Destsel.

(** The two columns of a [destsel] row that reach the status engine. *)
Record Row : Type := {
  row_ref_dep : option Z;
  row_deposit : option Z
}.

(** The package info handed to [determineStatus]; the descriptive fields
    ([destination], [nights], [vacation_type], [vaca_desc]) are not read by
    the status engine and are left out. *)
Record PackageInfo : Type := {
  ref_dep : Z;
  deposit : Z;
  total_expected : Z
}.

(** The object literal returned on a hit. *)
Definition packageOfRow (pkg : Row) : PackageInfo :=
  let refDeposit := Js.or_zero (row_ref_dep pkg) in
  let confDeposit := Js.or_zero (row_deposit pkg) in
  {| ref_dep := refDeposit;
     deposit := confDeposit;
     total_expected := refDeposit + confDeposit |}.

(** [getPackageFromDestsel] once the query has answered: the first row, or
    [null] when there is none. *)
Definition packageOfResults (results : list Row) : option PackageInfo :=
  match results with
  | [] => None
  | pkg :: _ => Some (packageOfRow pkg)
  end.

(** What every package info built by the lookup satisfies. *)
Definition from_lookup (p : option PackageInfo) : Prop :=
  match p with
  | None => True
  | Some pi => total_expected pi = ref_dep pi + deposit pi
  end.

End Destsel.

(** ** Status determination *)

Module Status.

Import Js Clock Destsel.

Record Customer : Type := {
  val_dep : option Z;
  conf_deposit : option Z;
  asgn_trv_dt : option string;
  tm : option string;
  conf_valid_code : option string;
  cash_back_amt : option Z;
  Fnl_Doc_MO_Date : option string;
  date_print_enc : option string;
  decReady : option bool;
  date_htl_book : option string;
  date_agncy_book : option string;
  pkg_code2 : option string
}.

Definition ONLINE_SCHEDULING_PACKAGES : list string :=
  ["ECRA"; "ECRB"; "ECRD"; "EKCA"].

Definition isPhoneSchedulingPackage (pkgCode : option string) : bool :=
  match pkgCode with
  | None => false
  | Some s =>
      if negb (truthy_str pkgCode) then false
      else
        let code := toUpperCase s in
        String.eqb code "EM" || String.eqb code "ES"
        || startsWith code "EX" || startsWith code "EZ"
  end.

(** The value of [pkg_code2 && LIST.includes(...)]: the falsy field itself,
    or the boolean. *)
Inductive Flag : Type :=
| FalsyField : option string -> Flag
| FlagBool : bool -> Flag.

Definition truthy_flag (f : Flag) : bool :=
  match f with
  | FalsyField _ => false
  | FlagBool b => b
  end.

Record Deposits : Type := {
  deposits_status : string;
  val_dep_paid : Z;
  conf_deposit_paid : Z;
  total_paid : Z;
  refundable_deposit_required : option Z;
  tax_deposit_required : option Z;
  expected_deposit : option Z;
  remaining : option Z;
  complete : bool
}.

Record StatusResult : Type := {
  status : string;
  statusLabel : string;
  agentMessage : string;
  deposits : Deposits;
  daysUntilTravel : option JsNum;
  isOnlineScheduling : Flag;
  isPhoneScheduling : bool
}.

(** [x || null] on a number. *)
Definition or_null (x : option Z) : option Z :=
  match x with
  | Some z => if z =? 0 then None else Some z
  | None => None
  end.

(** [tm && tm.trim() !== ''] *)
Definition rep_named (tm : option string) : bool :=
  match tm with
  | None => false
  | Some s => truthy_str tm && negb (String.eqb (trim s) "")
  end.

(** [(!tm || tm.trim() === '')] *)
Definition rep_blank (tm : option string) : bool :=
  match tm with
  | None => true
  | Some s => negb (truthy_str tm) || String.eqb (trim s) ""
  end.

(** *** The deposit block (lines 189-217) *)

Definition depositsComplete_of (paidValDep paidConfDep : Z)
    (packageInfo : option PackageInfo) : bool :=
  let expectedRefDep := match packageInfo with Some p => ref_dep p | None => 0 end in
  let expectedConfDep := match packageInfo with Some p => deposit p | None => 0 end in
  let expectedTotal := match packageInfo with Some p => Some (total_expected p) | None => None end in
  let totalPaid := paidValDep + paidConfDep in
  match expectedTotal with
  | Some expectedTotal =>
      if totalPaid >=? expectedTotal then true
      else if (expectedRefDep >? 0) && (expectedConfDep =? 0) then
        (paidValDep >=? expectedRefDep) || (paidConfDep >=? expectedRefDep)
      else if (expectedConfDep >? 0) && (expectedRefDep =? 0) then
        (paidValDep >=? expectedConfDep) || (paidConfDep >=? expectedConfDep)
      else false
  | None => (paidValDep >? 0) || (paidConfDep >? 0)
  end.

(** *** The guards of the status chain (lines 223-289), in source order *)

(** 1. REFUND PENDING *)
Definition guard1 (c : Customer) : bool :=
  truthy_num (cash_back_amt c) && field_gt0 (cash_back_amt c)
  && negb (truthy_str (Fnl_Doc_MO_Date c)).

(** 2. TRIP COMPLETE *)
Definition guard2 (c : Customer) (days : option JsNum) : bool :=
  truthy_str (Fnl_Doc_MO_Date c)
  || (not_null days && lt (ToNumber days) (-7)).

(** 3. TRAVEL PENDING *)
Definition guard3 (c : Customer) (days : option JsNum) : bool :=
  truthy_str (date_htl_book c) && truthy_str (date_agncy_book c)
  && not_null days && le (ToNumber days) 14.

(** 4. BOOKING PENDING *)
Definition guard4 (c : Customer) (days : option JsNum) : bool :=
  truthy_str (date_print_enc c) && not_null days && le (ToNumber days) 45.

(** 5. TRAVEL REP ASSIGNED *)
Definition guard5 (c : Customer) (days : option JsNum) : bool :=
  rep_named (tm c) && not_null days && le (ToNumber days) 75.

(** 6. WAITING FOR TRAVEL REP *)
Definition guard6 (c : Customer) (done : bool) (days : option JsNum) : bool :=
  done && truthy_str (asgn_trv_dt c) && rep_blank (tm c)
  && not_null days && le (ToNumber days) 75.

(** 7. READY TO SCHEDULE *)
Definition guard7 (c : Customer) (done : bool) : bool :=
  done && negb (truthy_str (asgn_trv_dt c)).

(** 8. DATES SCHEDULED *)
Definition guard8 (c : Customer) (done : bool) (days : option JsNum) : bool :=
  done && truthy_str (asgn_trv_dt c) && rep_blank (tm c)
  && strict_eq_str (conf_valid_code c) "CONFIRM" && gt (ToNumber days) 75.

(** 9. SCHEDULED NOT CONFIRMED *)
Definition guard9 (c : Customer) : bool :=
  truthy_str (asgn_trv_dt c)
  && negb (strict_eq_str (conf_valid_code c) "CONFIRM")
  && not_true (decReady c).

(** The three variables assigned in each branch. *)
Definition Outcome : Type := (string * string * string)%type.

Definition select (c : Customer) (online phone done : bool)
    (days : option JsNum) : Outcome :=
  if guard1 c then
    ("Refund Pending", "Refund Pending",
     "I see there is a pending matter on your account.")
  else if guard2 c days then
    ("Trip Complete", "Trip Complete",
     "I can see you have already traveled with us.")
  else if guard3 c days then
    ("Travel Pending", "Travel Pending",
     "Your trip is all booked and your itinerary should have been sent.")
  else if guard4 c days then
    ("Booking Pending", "Booking Pending",
     "Your booking is being finalized. Expect a call from our booking agent 7-14 days before your trip.")
  else if guard5 c days then
    ("Travel Rep Assigned", "Travel Rep Assigned",
     "Your travel rep has been assigned. Be sure to answer calls from the 805 area code.")
  else if guard6 c done days then
    ("Waiting For Travel Rep", "Waiting for Travel Rep",
     "Your travel dates are set and you are waiting for a travel rep to be assigned.")
  else if guard7 c done then
    ("Ready to Schedule", "Ready to Schedule",
     if online then
       "Great news! Your deposit is all paid up and you are ready to select your travel dates. You can login to your activatemytrip.com account to select your dates."
     else if phone then
       "Great news! Your deposit is all paid up and you are ready to select your travel dates. Would you like me to transfer you to scheduling?"
     else
       "Great news! Your deposit is all paid up and you are ready to select your travel dates.")
  else if guard8 c done days then
    ("Dates Scheduled", "Dates Scheduled",
     "Your travel dates are all set for "
       ++ match asgn_trv_dt c with Some s => s | None => "" end
       ++ ". A travel rep will be assigned 45-75 days before your trip.")
  else if guard9 c then
    if le (ToNumber days) 75 then
      ("Scheduled Not Confirmed - Must Reschedule", "Needs Rescheduling",
       "Your scheduled dates may no longer be available. Would you like me to transfer you to reschedule?")
    else
      ("Scheduled Not Confirmed - Can Confirm", "Needs Confirmation",
       "Your dates are scheduled but not yet confirmed. Would you like me to transfer you to confirm?")
  else
    ("Deposit Needed", "Deposit Needed",
     if online then
       "I see you have activated your vacation package. You can login to your activatemytrip.com account to select your travel dates and pay your deposit with a credit card."
     else if phone then
       "I see you have activated your vacation package. Would you like me to transfer you to scheduling so you can select your dates and pay the deposit over the phone?"
     else
       "I see you have activated your vacation package. It looks like we are just waiting on your deposit.").

Definition determineStatus (env : Env) (customer : Customer)
    (packageInfo : option PackageInfo) : StatusResult :=
  let isOnlineScheduling :=
    match pkg_code2 customer with
    | Some s =>
        if truthy_str (pkg_code2 customer)
        then FlagBool (includes ONLINE_SCHEDULING_PACKAGES (toUpperCase s))
        else FalsyField (pkg_code2 customer)
    | None => FalsyField None
    end in
  let isPhoneScheduling := isPhoneSchedulingPackage (pkg_code2 customer) in
  let expectedTotal :=
    match packageInfo with Some p => Some (total_expected p) | None => None end in
  let paidValDep := or_zero (val_dep customer) in
  let paidConfDep := or_zero (conf_deposit customer) in
  let totalPaid := paidValDep + paidConfDep in
  let depositsComplete := depositsComplete_of paidValDep paidConfDep packageInfo in
  let remaining :=
    match expectedTotal with
    | Some e => Some (Z.max 0 (e - totalPaid))
    | None => None
    end in
  let daysUntilTravel :=
    if truthy_str (asgn_trv_dt customer)
    then daysUntilDate env (asgn_trv_dt customer)
    else None in
  let '(status, statusLabel, agentMessage) :=
    select customer (truthy_flag isOnlineScheduling) isPhoneScheduling
           depositsComplete daysUntilTravel in
  {| status := status;
     statusLabel := statusLabel;
     agentMessage := agentMessage;
     deposits :=
       {| deposits_status := if depositsComplete then "complete" else "pending";
          val_dep_paid := paidValDep;
          conf_deposit_paid := paidConfDep;
          total_paid := totalPaid;
          refundable_deposit_required :=
            or_null (match packageInfo with Some p => Some (ref_dep p) | None => None end);
          tax_deposit_required :=
            or_null (match packageInfo with Some p => Some (deposit p) | None => None end);
          expected_deposit := expectedTotal;
          remaining := remaining;
          complete := depositsComplete |};
     daysUntilTravel := daysUntilTravel;
     isOnlineScheduling := isOnlineScheduling;
     isPhoneScheduling := isPhoneScheduling |}.

(** *** The parts of the result the properties below speak of *)

Definition status_of env c p : string := status (determineStatus env c p).
Definition deposits_of env c p : Deposits := deposits (determineStatus env c p).
Definition complete_of env c p : bool := complete (deposits_of env c p).
Definition days_of env c p : option JsNum :=
  daysUntilTravel (determineStatus env c p).

(** *** Records for the examples: field updates *)

Definition blank : Customer :=
  {| val_dep := None; conf_deposit := None; asgn_trv_dt := None; tm := None;
     conf_valid_code := None; cash_back_amt := None; Fnl_Doc_MO_Date := None;
     date_print_enc := None; decReady := None; date_htl_book := None;
     date_agncy_book := None; pkg_code2 := None |}.

Definition set_val_dep (v : option Z) (c : Customer) : Customer :=
  {| val_dep := v; conf_deposit := conf_deposit c;
     asgn_trv_dt := asgn_trv_dt c; tm := tm c;
     conf_valid_code := conf_valid_code c; cash_back_amt := cash_back_amt c;
     Fnl_Doc_MO_Date := Fnl_Doc_MO_Date c; date_print_enc := date_print_enc c;
     decReady := decReady c; date_htl_book := date_htl_book c;
     date_agncy_book := date_agncy_book c; pkg_code2 := pkg_code2 c |}.

Definition set_conf_deposit (v : option Z) (c : Customer) : Customer :=
  {| val_dep := val_dep c; conf_deposit := v;
     asgn_trv_dt := asgn_trv_dt c; tm := tm c;
     conf_valid_code := conf_valid_code c; cash_back_amt := cash_back_amt c;
     Fnl_Doc_MO_Date := Fnl_Doc_MO_Date c; date_print_enc := date_print_enc c;
     decReady := decReady c; date_htl_book := date_htl_book c;
     date_agncy_book := date_agncy_book c; pkg_code2 := pkg_code2 c |}.

Definition set_asgn_trv_dt (v : option string) (c : Customer) : Customer :=
  {| val_dep := val_dep c; conf_deposit := conf_deposit c;
     asgn_trv_dt := v; tm := tm c;
     conf_valid_code := conf_valid_code c; cash_back_amt := cash_back_amt c;
     Fnl_Doc_MO_Date := Fnl_Doc_MO_Date c; date_print_enc := date_print_enc c;
     decReady := decReady c; date_htl_book := date_htl_book c;
     date_agncy_book := date_agncy_book c; pkg_code2 := pkg_code2 c |}.

End Status.

(** ** The specification's reading of the engine *)

Module Spec.

Import Js Clock Destsel Status.

(** An ordered decision list: the result of the first pair whose predicate
    holds, the default when none does. *)
Fixpoint first_match {A : Type} (rules : list (bool * A)) (default : A) : A :=
  match rules with
  | [] => default
  | (true, a) :: _ => a
  | (false, _) :: rest => first_match rest default
  end.

(** Rules 1 to 9 as (predicate, status code) pairs; rule 9 carries the code
    chosen by its inner split. *)
Definition decision_list (c : Customer) (done : bool) (days : option JsNum)
  : list (bool * string) :=
  [ (guard1 c, "Refund Pending");
    (guard2 c days, "Trip Complete");
    (guard3 c days, "Travel Pending");
    (guard4 c days, "Booking Pending");
    (guard5 c days, "Travel Rep Assigned");
    (guard6 c done days, "Waiting For Travel Rep");
    (guard7 c done, "Ready to Schedule");
    (guard8 c done days, "Dates Scheduled");
    (guard9 c,
     if le (ToNumber days) 75
     then "Scheduled Not Confirmed - Must Reschedule"
     else "Scheduled Not Confirmed - Can Confirm") ].

(** Every string the code assigns to [status]. *)
Definition status_codes : list string :=
  [ "Refund Pending"; "Trip Complete"; "Travel Pending"; "Booking Pending";
    "Travel Rep Assigned"; "Waiting For Travel Rep"; "Ready to Schedule";
    "Dates Scheduled"; "Scheduled Not Confirmed - Must Reschedule";
    "Scheduled Not Confirmed - Can Confirm"; "Deposit Needed" ].

(** The local calendar day, counted from the epoch, of the instant [t]. *)
Definition local_day (tz : TimeZone) (t : Z) : Z := Day (LocalTime tz t).

(** The digits of a phone string, in order. *)
Definition digits_of (phone : option string) : list ascii :=
  filter Phone.is_digit
    (match phone with Some s => list_ascii_of_string s | None => [] end).

(** The normalised number as the specification words it: the digits, less a
    leading [1] when there are exactly eleven. *)
Definition clean_spec (phone : option string) : list ascii :=
  match digits_of phone with
  | d :: rest =>
      if Nat.eqb (List.length (d :: rest)) 11 && Ascii.eqb d "1"
      then rest else d :: rest
  | [] => []
  end.

(** Travel Pending as the rule table words it: both booking dates set and
    0 <= days-until-travel <= 14. *)
Definition travel_pending_window (c : Customer) (days : option JsNum) : Prop :=
  truthy_str (date_htl_book c) = true
  /\ truthy_str (date_agncy_book c) = true
  /\ exists z, days = Some (Num z) /\ 0 <= z <= 14.

(** Deposit completion as the reconciliation policy words it, on the paid
    amounts [a] and [b]: (a) total reaches the expected total, (b) exactly
    one required deposit is nonzero and one paid field reaches it, (c) no
    package info and one paid field is nonzero. *)
Definition complete_as_worded (a b : Z) (p : option PackageInfo) : bool :=
  match p with
  | Some pi =>
      (a + b >=? ref_dep pi + deposit pi)
      || (negb (ref_dep pi =? 0) && (deposit pi =? 0)
          && ((a >=? ref_dep pi) || (b >=? ref_dep pi)))
      || (negb (deposit pi =? 0) && (ref_dep pi =? 0)
          && ((a >=? deposit pi) || (b >=? deposit pi)))
  | None => negb (a =? 0) || negb (b =? 0)
  end.

End Spec.

(** ** Runtimes and records used in the examples *)

Module Examples.

Import Js Clock Destsel Status.

(** A process in UTC on 13 January 2026, 15:30. *)
Definition env_utc : Env := runtime utc_zone (civil_ms 2026 1 13 15 30 0).

(** A process in Los Angeles at noon of 1 November 2026, the day daylight
    time ends. *)
Definition env_fall_back : Env :=
  runtime los_angeles_2026 (civil_ms 2026 11 1 20 0 0).

Definition paid500 : Customer := set_val_dep (Some 500) blank.

Definition c_refund : Customer :=
  {| val_dep := None; conf_deposit := None; asgn_trv_dt := Some "2026-06-01";
     tm := Some "Dana"; conf_valid_code := Some "CONFIRM";
     cash_back_amt := Some 100; Fnl_Doc_MO_Date := None;
     date_print_enc := Some "2026-01-02"; decReady := Some true;
     date_htl_book := Some "2026-01-03"; date_agncy_book := Some "2026-01-03";
     pkg_code2 := Some "ECRA" |}.

Definition c_complete : Customer :=
  {| val_dep := None; conf_deposit := None; asgn_trv_dt := None; tm := None;
     conf_valid_code := None; cash_back_amt := None;
     Fnl_Doc_MO_Date := Some "2025-12-01";
     date_print_enc := None; decReady := None; date_htl_book := None;
     date_agncy_book := None; pkg_code2 := None |}.

(** Both booking dates set, travel date [d]. *)
Definition c_booked (d : string) : Customer :=
  {| val_dep := None; conf_deposit := None; asgn_trv_dt := Some d; tm := None;
     conf_valid_code := None; cash_back_amt := None; Fnl_Doc_MO_Date := None;
     date_print_enc := None; decReady := None;
     date_htl_book := Some "2026-01-05"; date_agncy_book := Some "2026-01-05";
     pkg_code2 := None |}.

Definition c_printed : Customer :=
  {| val_dep := None; conf_deposit := None; asgn_trv_dt := Some "2026-02-10";
     tm := None; conf_valid_code := None; cash_back_amt := None;
     Fnl_Doc_MO_Date := None; date_print_enc := Some "2026-01-02";
     decReady := None; date_htl_book := None; date_agncy_book := None;
     pkg_code2 := None |}.

Definition c_rep : Customer :=
  {| val_dep := None; conf_deposit := None; asgn_trv_dt := Some "2026-03-01";
     tm := Some "Dana"; conf_valid_code := None; cash_back_amt := None;
     Fnl_Doc_MO_Date := None; date_print_enc := None;
     decReady := None; date_htl_book := None; date_agncy_book := None;
     pkg_code2 := None |}.

Definition c_waiting : Customer := set_asgn_trv_dt (Some "2026-03-01") paid500.

Definition c_scheduled : Customer :=
  {| val_dep := Some 500; conf_deposit := None;
     asgn_trv_dt := Some "2026-06-01";
     tm := None; conf_valid_code := Some "CONFIRM"; cash_back_amt := None;
     Fnl_Doc_MO_Date := None; date_print_enc := None;
     decReady := None; date_htl_book := None; date_agncy_book := None;
     pkg_code2 := None |}.

Definition c_reschedule : Customer := set_asgn_trv_dt (Some "2026-03-01") blank.
Definition c_confirm : Customer := set_asgn_trv_dt (Some "2026-06-01") blank.

(** One record per status code, in the order of [Spec.status_codes]. *)
Definition one_per_code : list Customer :=
  [ c_refund; c_complete; c_booked "2026-01-20"; c_printed; c_rep; c_waiting;
    paid500; c_scheduled; c_reschedule; c_confirm; blank ].

(** A package that requires no deposit at all. *)
Definition free_package : PackageInfo :=
  packageOfRow {| row_ref_dep := Some 0; row_deposit := None |}.

(** A package with a single refundable deposit of 500. *)
Definition package500 : PackageInfo :=
  packageOfRow {| row_ref_dep := Some 500; row_deposit := Some 0 |}.

End Examples.

(** ** Credential cache and table query client *)

Module Caspio.

Import Js.

(** The two module-level variables [caspioToken] and [tokenExpiry]; both
    start as [null]. *)
Record Cache : Type := {
  caspioToken : option string;
  tokenExpiry : option JsNum
}.

Definition initial : Cache := {| caspioToken := None; tokenExpiry := None |}.

(** An HTTP answer: [response.ok], [response.status] and the parsed body
    ([None] when [response.json()] rejects). *)
Record Response (B : Type) : Type := {
  ok : bool;
  http_status : Z;
  body : option B
}.
Arguments ok {B} _.
Arguments http_status {B} _.
Arguments body {B} _.

(** What [await fetch(...)] does: reject, or resolve to a response. *)
Inductive Fetched (B : Type) : Type :=
| Rejected : Fetched B
| Responded : Response B -> Fetched B.
Arguments Rejected {B}.
Arguments Responded {B} _.

(** The body of the token endpoint's answer. *)
Record TokenBody : Type := {
  access_token : option string;
  expires_in : option Z
}.

(** What an [await] of the client can throw: the two [new Error] of the code
    with the status they print, a rejected [fetch], an unreadable body. *)
Inductive Error : Type :=
| AuthFailed : Z -> Error
| QueryFailed : Z -> Error
| FetchRejected : Error
| BodyUnreadable : Error.

Inductive Outcome (A : Type) : Type :=
| Returned : A -> Outcome A
| Threw : Error -> Outcome A.
Arguments Returned {A} _.
Arguments Threw {A} _.

(** [tokenExpiry] as a truthy number. *)
Definition truthy_jsnum (v : option JsNum) : bool :=
  match v with
  | Some (Num z) => negb (z =? 0)
  | _ => false
  end.

(** [Date.now() < tokenExpiry] *)
Definition now_before (now : Z) (v : option JsNum) : bool :=
  match ToNumber v with
  | Num z => now <? z
  | NaN => false
  end.

(** [caspioToken && tokenExpiry && Date.now() < tokenExpiry] *)
Definition cache_valid (st : Cache) (now : Z) : bool :=
  truthy_str (caspioToken st) && truthy_jsnum (tokenExpiry st)
  && now_before now (tokenExpiry st).

(** One call of [getCaspioToken]: its outcome, the cache it leaves and
    whether the token endpoint was contacted. *)
Record TokenCall : Type := {
  token_result : Outcome (option string);
  token_cache : Cache;
  auth_contacted : bool
}.

(** [getCaspioToken] in the cache [st]; [now] is the reading of [Date.now()]
    at the validity test, [answer] what the token endpoint does when asked,
    [later] the reading of [Date.now()] once the answer has arrived. *)
Definition getCaspioToken (st : Cache) (now : Z)
    (answer : Fetched TokenBody) (later : Z) : TokenCall :=
  if cache_valid st now then
    {| token_result := Returned (caspioToken st);
       token_cache := st; auth_contacted := false |}
  else
    match answer with
    | Rejected =>
        {| token_result := Threw FetchRejected;
           token_cache := st; auth_contacted := true |}
    | Responded response =>
        if negb (ok response) then
          {| token_result := Threw (AuthFailed (http_status response));
             token_cache := st; auth_contacted := true |}
        else
          match body response with
          | None =>
              {| token_result := Threw BodyUnreadable;
                 token_cache := st; auth_contacted := true |}
          | Some data =>
              let st' :=
                {| caspioToken := access_token data;
                   tokenExpiry :=
                     Some (match expires_in data with
                           | Some e => Num (later + e * 1000 - 60000)
                           | None => NaN
                           end) |} in
              {| token_result := Returned (caspioToken st');
                 token_cache := st'; auth_contacted := true |}
          end
    end.

(** What the request URL of a table query carries besides the account:
    the table, [q.pageSize] and, when the clause is truthy, [q.where]. *)
Record Request : Type := {
  table : string;
  pageSize : Z;
  q_where : option string
}.

(** The body of a table answer: [data.Result]. *)
Record TableBody (A : Type) : Type := { Result : option (list A) }.
Arguments Result {A} _.

(** One call of [queryCaspioTable]: its outcome, the cache it leaves, whether
    the token endpoint was contacted, and the request sent with its bearer
    token, if one was sent. *)
Record QueryCall (A : Type) : Type := {
  query_result : Outcome (list A);
  query_cache : Cache;
  query_auth_contacted : bool;
  query_sent : option (Request * option string)
}.
Arguments query_result {A} _.
Arguments query_cache {A} _.
Arguments query_auth_contacted {A} _.
Arguments query_sent {A} _.

Definition queryCaspioTable {A : Type} (st : Cache) (now : Z)
    (auth : Fetched TokenBody) (later : Z)
    (store : Request -> option string -> Fetched (TableBody A))
    (tableName : string) (whereClause : option string) (pageSize : Z)
  : QueryCall A :=
  let call := getCaspioToken st now auth later in
  match token_result call with
  | Threw e =>
      {| query_result := Threw e; query_cache := token_cache call;
         query_auth_contacted := auth_contacted call; query_sent := None |}
  | Returned token =>
      let url :=
        {| table := tableName; pageSize := pageSize;
           q_where := if truthy_str whereClause then whereClause else None |} in
      let result :=
        match store url token with
        | Rejected => Threw FetchRejected
        | Responded response =>
            if negb (ok response) then Threw (QueryFailed (http_status response))
            else
              match body response with
              | None => Threw BodyUnreadable
              | Some data =>
                  Returned (match Result data with
                            | Some rows => rows
                            | None => []
                            end)
              end
        end in
      {| query_result := result; query_cache := token_cache call;
         query_auth_contacted := auth_contacted call;
         query_sent := Some (url, token) |}
  end.

End Caspio.

(** ** Business hours *)

Module Hours.

Import Clock.

(** Day of the week of a time value, 0 = Sunday. *)
Definition WeekDay (t : Z) : Z := (Day t + 4) mod 7.

Definition HourFromTime (t : Z) : Z := (t / msPerHour) mod 24.

(** [new Date(now.toLocaleString('en-US', { timeZone: 'America/Los_Angeles' }))]:
    the wall clock of the zone [la], to the second, read back as a local
    time of the process. *)
Definition wall_clock_date (process la : TimeZone) (now : Z) : Z :=
  UTC process (LocalTime la now / 1000 * 1000).

(** [isBusinessHours]; [la] is the zone America/Los_Angeles of the runtime's
    time zone data. *)
Definition isBusinessHours (env : Env) (la : TimeZone) : bool :=
  let pst := wall_clock_date (zone env) la (now env) in
  let day := WeekDay (LocalTime (zone env) pst) in
  let hour := HourFromTime (LocalTime (zone env) pst) in
  (day >=? 1) && (day <=? 5) && (hour >=? 9) && (hour <? 17).

End Hours.

(** ** Package lookup, with the query and the descriptive fields *)

Module Lookup.

Import Js Destsel Caspio.

(** A [destsel] row: the two amounts and the descriptive columns. *)
Record FullRow : Type := {
  amounts : Row;
  row_destination : option string;
  row_dest : option string;
  row_ngts : option Z;
  row_nights : option Z;
  row_vacation_type : option string;
  row_vaca_desc : option string
}.

(** The object returned on a hit; [info] holds its fields [ref_dep],
    [deposit] and [total_expected]. *)
Record Package : Type := {
  found : bool;
  pkgcode2 : string;
  info : PackageInfo;
  destination : option string;
  nights : option Z;
  vacation_type : option string;
  vaca_desc : option string
}.

(** [a || b || null] on strings and on numbers. *)
Definition first_truthy_str (a b : option string) : option string :=
  if truthy_str a then a else if truthy_str b then b else None.

Definition first_truthy_num (a b : option Z) : option Z :=
  if truthy_num a then a else if truthy_num b then b else None.

(** [a || null] *)
Definition str_or_null (a : option string) : option string :=
  if truthy_str a then a else None.

(** The filter sent to the package table. *)
Definition package_clause (code : string) : string :=
  "pkgcode2='" ++ code ++ "'".

(** [getPackageFromDestsel]: the package, or [null], and the filters it sent
    to the package table.  [destsel w] is what
    [await queryCaspioTable(CASPIO_CONFIG.tables.destsel, w)] does. *)
Definition getPackageFromDestsel
    (destsel : string -> Outcome (list FullRow)) (pkgCode2 : option string)
  : option Package * list string :=
  match pkgCode2 with
  | None => (None, [])
  | Some s =>
      if negb (truthy_str pkgCode2) then (None, [])
      else
        let code := toUpperCase s in
        let clause := package_clause code in
        match destsel clause with
        | Returned (pkg :: _) =>
            (Some {| found := true;
                     pkgcode2 := code;
                     info := packageOfRow (amounts pkg);
                     destination :=
                       first_truthy_str (row_destination pkg) (row_dest pkg);
                     nights := first_truthy_num (row_ngts pkg) (row_nights pkg);
                     vacation_type := str_or_null (row_vacation_type pkg);
                     vaca_desc := str_or_null (row_vaca_desc pkg) |},
             [clause])
        | Returned [] => (None, [clause])
        | Threw _ => (None, [clause])
        end
  end.

End Lookup.

(** ** Customer records as the store returns them, and their ordering *)

Module Rims.

Import Js Clock Status.

(** A [RIMS_DATA] row: the fields the status engine reads and the ones the
    handlers echo. *)
Record Entry : Type := {
  engine_fields : Customer;
  vac_id : option Z;
  p1F : option string;
  p1L : option string;
  email : option string;
  phn1 : option string;
  dest : option string;
  val_entered_on : option string
}.

(** [a || ''] *)
Definition or_empty (a : option string) : string :=
  match a with
  | Some s => s
  | None => ""
  end.

(** [`${c.p1F || ''} ${c.p1L || ''}`.trim()] *)
Definition trimmed_name (c : Entry) : string :=
  trim (or_empty (p1F c) ++ " " ++ or_empty (p1L c)).

(** [... .trim() || 'Valued Customer'] *)
Definition fullName (c : Entry) : string :=
  if String.eqb (trimmed_name c) "" then "Valued Customer" else trimmed_name c.

(** The time value of
    [a.val_entered_on ? new Date(a.val_entered_on) : new Date(0)]. *)
Definition entered (env : Env) (a : Entry) : JsNum :=
  match val_entered_on a with
  | None => Num 0
  | Some s =>
      if truthy_str (val_entered_on a) then
        match new_Date env s with
        | Some t => Num t
        | None => NaN
        end
      else Num 0
  end.

(** [x - y] on numbers that may be NaN. *)
Definition minus (x y : JsNum) : JsNum :=
  match x, y with
  | Num a, Num b => Num (a - b)
  | _, _ => NaN
  end.

(** The comparator [(a, b) => dateB - dateA]. *)
Definition by_entry_date (env : Env) (a b : Entry) : JsNum :=
  minus (entered env b) (entered env a).

(** [arr.sort(cmp)]: the sort is stable, a positive comparator value puts
    [b] before [a], and a NaN value counts as 0.  For a comparator that is a
    consistent ordering, which [by_entry_date] is when no date is invalid,
    the result is the one of this insertion sort. *)
Fixpoint insert (cmp : Entry -> Entry -> JsNum) (a : Entry) (l : list Entry)
  : list Entry :=
  match l with
  | [] => [a]
  | b :: rest =>
      if gt (cmp a b) 0 then b :: insert cmp a rest else a :: b :: rest
  end.

Fixpoint sort (cmp : Entry -> Entry -> JsNum) (l : list Entry) : list Entry :=
  match l with
  | [] => []
  | a :: rest => insert cmp a (sort cmp rest)
  end.

End Rims.

(** ** The request handlers *)

Module Api.

Import Js Clock Destsel Status Phone Caspio Lookup Rims Hours.

(** The external reads of a handler: the filters sent to the customer table
    and to the package table, in order. *)
Inductive Issued : Type :=
| ToRims : string -> Issued
| ToDestsel : string -> Issued.

(** What the two tables answer to a filter: the outcome of
    [await queryCaspioTable(table, filter)]. *)
Record Store : Type := {
  rims : string -> Outcome (list Entry);
  destsel : string -> Outcome (list FullRow)
}.

(** The filter of the lookups by phone. *)
Definition phone_clause (phoneClean : string) : string :=
  "phn1='" ++ phoneClean ++ "' OR phn2='" ++ phoneClean ++ "'".

(** A [vac_id] of a request body: a JSON number or a JSON string. *)
Inductive JsonId : Type :=
| IdNumber : Z -> JsonId
| IdString : string -> JsonId.

Definition truthy_id (v : option JsonId) : bool :=
  match v with
  | None => false
  | Some (IdNumber z) => negb (z =? 0)
  | Some (IdString s) => negb (String.eqb s "")
  end.

(** The text of an id inside a template literal; a number is printed in
    decimal, as JavaScript does for integers below 10^21. *)
Definition id_text (v : JsonId) : string :=
  match v with
  | IdNumber z => NilZero.string_of_int (Z.to_int z)
  | IdString s => s
  end.

(** The filter of the lookups by account identifier. *)
Definition id_clause (v : JsonId) : string := "vac_id=" ++ id_text v.

(** The [customer] object of a status payload. *)
Record CustomerView : Type := {
  cv_full_name : string;
  cv_first_name : string;
  cv_last_name : string;
  cv_email : string;
  cv_phone : string;
  cv_vac_id : option Z;
  cv_pkg_code2 : option string;
  cv_destination : option string;
  cv_travel_date : option string;
  cv_days_until_travel : option JsNum;
  cv_travel_rep_name : option string
}.

(** The [package] object of a status payload; the handler of
    /api/rims/customer-status leaves [vacation_type] out. *)
Record PackageView : Type := {
  pv_description : option string;
  pv_destination : option string;
  pv_nights : option Z;
  pv_vacation_type : option (option string)
}.

(** A status payload: [status], [status_label], [agent_message], [deposits]
    and the two channel flags are the fields of [payload_status]; the
    [details.deposits] of /api/rims/customer-status repeats [deposits]. *)
Record StatusPayload : Type := {
  payload_status : StatusResult;
  payload_customer : CustomerView;
  payload_package : option PackageView;
  payload_business_hours : bool
}.

Definition customer_view (c : Entry) (statusInfo : StatusResult)
    (phone_fallback : string) : CustomerView :=
  {| cv_full_name := fullName c;
     cv_first_name := or_empty (p1F c);
     cv_last_name := or_empty (p1L c);
     cv_email := or_empty (email c);
     cv_phone :=
       if truthy_str (phn1 c) then "+1" ++ or_empty (phn1 c)
       else phone_fallback;
     cv_vac_id := vac_id c;
     cv_pkg_code2 := pkg_code2 (engine_fields c);
     cv_destination := dest c;
     cv_travel_date := str_or_null (asgn_trv_dt (engine_fields c));
     cv_days_until_travel := daysUntilTravel statusInfo;
     cv_travel_rep_name := str_or_null (tm (engine_fields c)) |}.

Definition package_view (with_type : bool) (p : option Package)
  : option PackageView :=
  match p with
  | None => None
  | Some packageInfo =>
      Some {| pv_description := vaca_desc packageInfo;
              pv_destination := destination packageInfo;
              pv_nights := nights packageInfo;
              pv_vacation_type :=
                if with_type then Some (vacation_type packageInfo) else None |}
  end.

(** The steps shared by the three handlers that compute a status: package
    lookup under [code], status determination, payload. *)
Definition status_payload (env : Env) (la : TimeZone) (st : Store)
    (customer : Entry) (code : option string) (phone_fallback : string)
    (with_type : bool) : StatusPayload * list Issued :=
  let '(packageInfo, sent) := getPackageFromDestsel (destsel st) code in
  let statusInfo :=
    determineStatus env (engine_fields customer)
      (match packageInfo with Some p => Some (info p) | None => None end) in
  ({| payload_status := statusInfo;
      payload_customer := customer_view customer statusInfo phone_fallback;
      payload_package := package_view with_type packageInfo;
      payload_business_hours := isBusinessHours env la |},
   map ToDestsel sent).

(** *** GET /api/customer/status *)

Record RecordSummary : Type := {
  rs_index : nat;
  rs_vac_id : option Z;
  rs_pkg_code2 : option string;
  rs_destination : option string;
  rs_full_name : string;
  rs_val_entered_on : option string
}.

Record Verification : Type := {
  record_count : nat;
  verification_message : string;
  caller_full_name : string;
  caller_first_name : string;
  caller_last_name : string;
  caller_phone : string;
  all_records : list RecordSummary;
  most_recent_vac_id : option Z;
  most_recent_pkg_code2 : option string;
  most_recent_destination : option string;
  verification_business_hours : bool
}.

Inductive StatusResponse : Type :=
| NoPhoneProvided : StatusResponse
| UnknownCaller : bool -> StatusResponse
| VerificationNeeded : Verification -> StatusResponse
| FoundStatus : StatusPayload -> StatusResponse
| LookupError : bool -> StatusResponse.

Definition summary (index : nat) (c : Entry) : RecordSummary :=
  {| rs_index := index;
     rs_vac_id := vac_id c;
     rs_pkg_code2 := pkg_code2 (engine_fields c);
     rs_destination := dest c;
     rs_full_name := fullName c;
     rs_val_entered_on := val_entered_on c |}.

(** [customers.map((c, index) => ...)] from [index] on. *)
Fixpoint summaries (index : nat) (l : list Entry) : list RecordSummary :=
  match l with
  | [] => []
  | c :: rest => summary index c :: summaries (S index) rest
  end.

Definition verification (env : Env) (la : TimeZone) (phone : string)
    (mostRecent : Entry) (customers : list Entry) : Verification :=
  {| record_count := List.length customers;
     verification_message :=
       "Are you calling about your package to "
       ++ (if truthy_str (dest mostRecent) then or_empty (dest mostRecent)
           else "your vacation")
       ++ "?";
     caller_full_name := fullName mostRecent;
     caller_first_name := or_empty (p1F mostRecent);
     caller_last_name := or_empty (p1L mostRecent);
     caller_phone :=
       if truthy_str (phn1 mostRecent) then "+1" ++ or_empty (phn1 mostRecent)
       else phone;
     all_records := summaries 0 customers;
     most_recent_vac_id := vac_id mostRecent;
     most_recent_pkg_code2 := pkg_code2 (engine_fields mostRecent);
     most_recent_destination := dest mostRecent;
     verification_business_hours := isBusinessHours env la |}.

Definition customer_status (env : Env) (la : TimeZone) (st : Store)
    (phone : option string) : StatusResponse * list Issued :=
  match phone with
  | None => (NoPhoneProvided, [])
  | Some raw =>
      if negb (truthy_str phone) then (NoPhoneProvided, [])
      else
        let phoneClean := cleanPhone phone in
        let clause := phone_clause phoneClean in
        match rims st clause with
        | Threw _ => (LookupError (isBusinessHours env la), [ToRims clause])
        | Returned [] =>
            (UnknownCaller (isBusinessHours env la), [ToRims clause])
        | Returned (first :: others) =>
            match sort (by_entry_date env) (first :: others) with
            | [] => (LookupError (isBusinessHours env la), [ToRims clause])
            | mostRecent :: rest =>
                if (1 <? List.length (mostRecent :: rest))%nat then
                  (VerificationNeeded
                     (verification env la raw mostRecent (mostRecent :: rest)),
                   [ToRims clause])
                else
                  let '(payload, sent) :=
                    status_payload env la st mostRecent
                      (pkg_code2 (engine_fields mostRecent)) raw true in
                  (FoundStatus payload, ToRims clause :: sent)
            end
        end
  end.

(** *** POST /api/customer/status-by-id and POST /api/rims/customer-status *)

Inductive ByIdResponse : Type :=
| IdRequired : ByIdResponse
| IdNotFound : ByIdResponse
| IdFound : StatusPayload -> ByIdResponse
| IdError : Error -> ByIdResponse.

(** [customer.pkg_code2 || pkg_code2] *)
Definition code_or (c : Entry) (pkg_code2_param : option string)
  : option string :=
  if truthy_str (pkg_code2 (engine_fields c)) then pkg_code2 (engine_fields c)
  else pkg_code2_param.

Definition status_by_id (env : Env) (la : TimeZone) (st : Store)
    (vac_id_param : option JsonId) (pkg_code2_param : option string)
  : ByIdResponse * list Issued :=
  match vac_id_param with
  | None => (IdRequired, [])
  | Some v =>
      if negb (truthy_id vac_id_param) then (IdRequired, [])
      else
        let clause := id_clause v in
        match rims st clause with
        | Threw e => (IdError e, [ToRims clause])
        | Returned [] => (IdNotFound, [ToRims clause])
        | Returned (customer :: _) =>
            let '(payload, sent) :=
              status_payload env la st customer
                (code_or customer pkg_code2_param) "" true in
            (IdFound payload, ToRims clause :: sent)
        end
  end.

Definition rims_customer_status (env : Env) (la : TimeZone) (st : Store)
    (vac_id_param : option JsonId) (pkg_code2_param : option string)
    (phone_number : option string) : ByIdResponse * list Issued :=
  if negb (truthy_id vac_id_param) && negb (truthy_str phone_number)
  then (IdRequired, [])
  else
    let whereClause :=
      match vac_id_param with
      | Some v =>
          if truthy_id vac_id_param then id_clause v
          else phone_clause (cleanPhone phone_number)
      | None => phone_clause (cleanPhone phone_number)
      end in
    match rims st whereClause with
    | Threw e => (IdError e, [ToRims whereClause])
    | Returned [] => (IdNotFound, [ToRims whereClause])
    | Returned (customer :: _) =>
        let '(payload, sent) :=
          status_payload env la st customer
            (code_or customer pkg_code2_param) "" false in
        (IdFound payload, ToRims whereClause :: sent)
    end.

(** *** POST /api/rims/phone-lookup *)

Record LookupRecord : Type := {
  lr_vac_id : option Z;
  lr_pkg_code2 : option string;
  lr_destination : option string;
  lr_name : string
}.

Inductive PhoneLookupResponse : Type :=
| PhoneRequired : PhoneLookupResponse
| PhoneNotFound : PhoneLookupResponse
| PhoneFound : LookupRecord -> option string -> list LookupRecord
               -> PhoneLookupResponse
| PhoneError : Error -> PhoneLookupResponse.

Definition lookup_record (c : Entry) : LookupRecord :=
  {| lr_vac_id := vac_id c;
     lr_pkg_code2 := pkg_code2 (engine_fields c);
     lr_destination := dest c;
     lr_name := trimmed_name c |}.

Definition phone_lookup (env : Env) (st : Store) (phone_number : option string)
  : PhoneLookupResponse * list Issued :=
  if negb (truthy_str phone_number) then (PhoneRequired, [])
  else
    let phoneClean := cleanPhone phone_number in
    let clause := phone_clause phoneClean in
    match rims st clause with
    | Threw e => (PhoneError e, [ToRims clause])
    | Returned [] => (PhoneNotFound, [ToRims clause])
    | Returned (first :: others) =>
        match sort (by_entry_date env) (first :: others) with
        | [] => (PhoneNotFound, [ToRims clause])
        | customer :: rest =>
            (PhoneFound (lookup_record customer) (phn1 customer)
               (map lookup_record (customer :: rest)),
             [ToRims clause])
        end
    end.

End Api.

(** ** Further definitions used by the properties *)

Module More.

Import Js Clock Destsel Status.

Definition set_pkg_code2 (v : option string) (c : Customer) : Customer :=
  {| val_dep := val_dep c; conf_deposit := conf_deposit c;
     asgn_trv_dt := asgn_trv_dt c; tm := tm c;
     conf_valid_code := conf_valid_code c; cash_back_amt := cash_back_amt c;
     Fnl_Doc_MO_Date := Fnl_Doc_MO_Date c; date_print_enc := date_print_enc c;
     decReady := decReady c; date_htl_book := date_htl_book c;
     date_agncy_book := date_agncy_book c; pkg_code2 := v |}.

(** The display label that goes with a status code. *)
Definition label_of (status : string) : string :=
  if String.eqb status "Waiting For Travel Rep" then "Waiting for Travel Rep"
  else if String.eqb status "Scheduled Not Confirmed - Must Reschedule"
  then "Needs Rescheduling"
  else if String.eqb status "Scheduled Not Confirmed - Can Confirm"
  then "Needs Confirmation"
  else status.

(** Deposits complete, travel date 139 days out, a rep named, not
    confirmed, decision ready. *)
Definition c_paid_far_ready : Customer :=
  {| val_dep := Some 500; conf_deposit := None;
     asgn_trv_dt := Some "2026-06-01"; tm := Some "Dana";
     conf_valid_code := None; cash_back_amt := None;
     Fnl_Doc_MO_Date := None; date_print_enc := None;
     decReady := Some true; date_htl_book := None; date_agncy_book := None;
     pkg_code2 := Some "em" |}.

(** A travel date that is no date. *)
Definition c_bad_date : Customer :=
  {| val_dep := Some 500; conf_deposit := None;
     asgn_trv_dt := Some "soon"; tm := None;
     conf_valid_code := None; cash_back_amt := None;
     Fnl_Doc_MO_Date := None; date_print_enc := None;
     decReady := None; date_htl_book := Some "2026-01-05";
     date_agncy_book := Some "2026-01-05"; pkg_code2 := None |}.

(** [a] was entered no earlier than [b], both entry dates being valid. *)
Definition newer_or_same (env : Env) (a b : Rims.Entry) : Prop :=
  exists x y,
    Rims.entered env a = Num x /\ Rims.entered env b = Num y /\ y <= x.

(** The entry date of [a] is the time value [k]. *)
Definition entered_at (env : Env) (k : Z) (a : Rims.Entry) : bool :=
  match Rims.entered env a with
  | Num x => x =? k
  | NaN => false
  end.

Definition valid_dates (env : Env) (l : list Rims.Entry) : Prop :=
  Forall (fun a => Rims.entered env a <> NaN) l.

(** The status result inside a by-id response, if it has one. *)
Definition response_status (r : Api.ByIdResponse) : option StatusResult :=
  match r with
  | Api.IdFound payload => Some (Api.payload_status payload)
  | _ => None
  end.

Definition found_status (r : Api.StatusResponse) : option StatusResult :=
  match r with
  | Api.FoundStatus payload => Some (Api.payload_status payload)
  | _ => None
  end.

(** Three rows for the examples: entered in June 2025, in September 2025
    and without an entry date. *)
Definition entry (id : Z) (entered_on : option string) : Rims.Entry :=
  {| Rims.engine_fields := set_pkg_code2 (Some "em") Examples.paid500;
     Rims.vac_id := Some id;
     Rims.p1F := Some "Ann"; Rims.p1L := Some "Lee";
     Rims.email := None; Rims.phn1 := Some "8055551234";
     Rims.dest := Some "Cancun"; Rims.val_entered_on := entered_on |}.

Definition e_june : Rims.Entry := entry 101 (Some "2025-06-01").
Definition e_september : Rims.Entry := entry 102 (Some "2025-09-15").
Definition e_undated : Rims.Entry := entry 103 None.

(** A string of digits only. *)
Definition digits_only (d : string) : bool :=
  forallb Phone.is_digit (list_ascii_of_string d).

(** A string of white space only, the empty string included. *)
Definition blank_string (s : string) : bool :=
  forallb is_ws (list_ascii_of_string s).

(** A store that answers every customer filter with [rows] and fails every
    package read. *)
Definition store_of (rows : list Rims.Entry) : Api.Store :=
  {| Api.rims := fun _ => Caspio.Returned rows;
     Api.destsel := fun _ => Caspio.Threw (Caspio.QueryFailed 500) |}.

(** A package row for the examples, and a package table that answers every
    filter with it. *)
Definition sample_row : Lookup.FullRow :=
  {| Lookup.amounts := {| row_ref_dep := Some 500; row_deposit := None |};
     Lookup.row_destination := None; Lookup.row_dest := Some "Cancun";
     Lookup.row_ngts := Some 5; Lookup.row_nights := None;
     Lookup.row_vacation_type := Some "Resort";
     Lookup.row_vaca_desc := None |}.

Definition sample_destsel (w : string) : Caspio.Outcome (list Lookup.FullRow) :=
  Caspio.Returned [sample_row].

End More.

(** * Properties *)

Import Js Clock Destsel Status Phone Spec Examples.

(** ** Projections of the result *)

Lemma status_of_select env c p :
  status_of env c p
  = fst (fst (select c
                (truthy_flag (isOnlineScheduling (determineStatus env c p)))
                (isPhoneScheduling (determineStatus env c p))
                (complete_of env c p) (days_of env c p))).
Proof.
  unfold status_of, complete_of, deposits_of, days_of, determineStatus.
  destruct (select c _ _ _ _) as [[st lbl] msg] eqn:E.
  cbn [status isOnlineScheduling isPhoneScheduling deposits complete
       daysUntilTravel].
  rewrite E. reflexivity.
Qed.

Lemma deposits_of_eq env c p :
  deposits_of env c p
  = let a := or_zero (val_dep c) in
    let b := or_zero (conf_deposit c) in
    let done := depositsComplete_of a b p in
    {| deposits_status := if done then "complete" else "pending";
       val_dep_paid := a;
       conf_deposit_paid := b;
       total_paid := a + b;
       refundable_deposit_required :=
         or_null (match p with Some pi => Some (ref_dep pi) | None => None end);
       tax_deposit_required :=
         or_null (match p with Some pi => Some (deposit pi) | None => None end);
       expected_deposit :=
         match p with Some pi => Some (total_expected pi) | None => None end;
       remaining :=
         match match p with Some pi => Some (total_expected pi) | None => None end with
         | Some e => Some (Z.max 0 (e - (a + b)))
         | None => None
         end;
       complete := done |}.
Proof.
  unfold deposits_of, determineStatus.
  destruct (select c _ _ _ _) as [[st lbl] msg]. reflexivity.
Qed.

Lemma complete_of_eq env c p :
  complete_of env c p
  = depositsComplete_of (or_zero (val_dep c)) (or_zero (conf_deposit c)) p.
Proof. unfold complete_of. rewrite deposits_of_eq. reflexivity. Qed.

Lemma days_of_eq env c p :
  days_of env c p
  = if truthy_str (asgn_trv_dt c) then daysUntilDate env (asgn_trv_dt c)
    else None.
Proof.
  unfold days_of, determineStatus.
  destruct (select c _ _ _ _) as [[st lbl] msg]. reflexivity.
Qed.

(** The nested conditional and the ordered decision list pick the same
    status code. *)
Lemma select_first_match c online phone done days :
  fst (fst (select c online phone done days))
  = first_match (decision_list c done days) "Deposit Needed".
Proof.
  unfold select, decision_list; cbn [first_match].
  destruct (guard1 c); [reflexivity|].
  destruct (guard2 c days); [reflexivity|].
  destruct (guard3 c days); [reflexivity|].
  destruct (guard4 c days); [reflexivity|].
  destruct (guard5 c days); [reflexivity|].
  destruct (guard6 c done days); [reflexivity|].
  destruct (guard7 c done); [reflexivity|].
  destruct (guard8 c done days); [reflexivity|].
  destruct (guard9 c); [|reflexivity].
  destruct (le (ToNumber days) 75); reflexivity.
Qed.

Lemma status_of_first_match env c p :
  status_of env c p
  = first_match (decision_list c (complete_of env c p) (days_of env c p))
                "Deposit Needed".
Proof. rewrite status_of_select. apply select_first_match. Qed.

Lemma first_match_in (rules : list (bool * string)) (d : string) :
  first_match rules d = d \/ In (first_match rules d) (map snd rules).
Proof.
  induction rules as [|[b a] rest IH]; cbn.
  - left; reflexivity.
  - destruct b.
    + right; left; reflexivity.
    + destruct IH as [IH|IH]; [left|right; right]; exact IH.
Qed.

Lemma status_codes_nodup : NoDup status_codes.
Proof.
  unfold status_codes.
  repeat (constructor; [cbn; intuition discriminate|]).
  constructor.
Qed.

(** Each of the eleven codes is the status of some record. *)
Lemma status_codes_reached :
  map (fun c => status_of env_utc c None) one_per_code = status_codes.
Proof. vm_compute. reflexivity. Qed.

(** ** Guards, read as propositions *)

Lemma guard3_true c days :
  guard3 c days = true <->
  truthy_str (date_htl_book c) = true
  /\ truthy_str (date_agncy_book c) = true
  /\ exists z, days = Some (Num z) /\ z <= 14.
Proof.
  unfold guard3. rewrite !andb_true_iff. split.
  - intros [[[Hh Ha] Hn] Hle]. repeat split; trivial.
    destruct days as [[|z]|]; cbn in *; try discriminate.
    exists z. split; [reflexivity|]. apply Z.leb_le; exact Hle.
  - intros (Hh & Ha & z & -> & Hz). cbn. repeat split; trivial.
    apply Z.leb_le; exact Hz.
Qed.

Lemma guard2_false_number c z :
  guard2 c (Some (Num z)) = false -> -7 <= z.
Proof.
  unfold guard2. intros H. apply orb_false_iff in H as [_ H].
  cbn in H. apply Z.ltb_ge in H. exact H.
Qed.

Lemma guard9_travel_date c :
  guard9 c = true -> truthy_str (asgn_trv_dt c) = true.
Proof.
  unfold guard9. rewrite !andb_true_iff. tauto.
Qed.

Lemma daysUntilDate_not_null env d :
  truthy_str d = true -> daysUntilDate env d <> None.
Proof.
  unfold daysUntilDate. destruct d as [s|]; [|discriminate].
  intros ->. cbn. discriminate.
Qed.

(** Without a travel date none of the rules 3 to 6 can match. *)
Lemma no_travel_date_guards c done env p :
  truthy_str (asgn_trv_dt c) = false ->
  days_of env c p = None
  /\ guard3 c None = false /\ guard4 c None = false
  /\ guard5 c None = false /\ guard6 c done None = false.
Proof.
  intros H. rewrite days_of_eq, H.
  unfold guard3, guard4, guard5, guard6. cbn.
  rewrite ?andb_false_r. cbn. rewrite ?andb_false_r. repeat split; reflexivity.
Qed.

(** ** Status selection *)

(** C1, as amended.  For every runtime, customer record and package info
    (null included) [determineStatus] returns a result whose status is the
    outcome of reading rules 1 to 9 as an ordered first-match list with
    'Deposit Needed' as the default; the status is always one of eleven
    pairwise distinct codes, rule 9 contributing two of them
    ('Scheduled Not Confirmed - Must Reschedule' when days-until-travel is at
    most 75, 'Scheduled Not Confirmed - Can Confirm' otherwise). *)
Theorem determineStatus_first_match env c p :
  status_of env c p
  = first_match (decision_list c (complete_of env c p) (days_of env c p))
                "Deposit Needed"
  /\ In (status_of env c p) status_codes
  /\ NoDup status_codes
  /\ List.length status_codes = 11%nat.
Proof.
  split; [|split; [|split]].
  - apply status_of_first_match.
  - rewrite status_of_first_match.
    destruct (first_match_in
                (decision_list c (complete_of env c p) (days_of env c p))
                "Deposit Needed") as [E|E].
    + rewrite E. unfold status_codes. cbn. tauto.
    + revert E.
      generalize (first_match
        (decision_list c (complete_of env c p) (days_of env c p))
        "Deposit Needed").
      intros s. unfold decision_list, status_codes. cbn [map snd In].
      destruct (le _ 75); intuition.
  - exact status_codes_nodup.
  - reflexivity.
Qed.

(** C1, as stated, fails: no list of ten codes contains every status the
    engine returns, since the eleven records of [one_per_code] receive
    eleven distinct codes. *)
Lemma ten_codes_do_not_suffice :
  ~ exists codes : list string,
      List.length codes = 10%nat
      /\ forall c p, In (status_of env_utc c p) codes.
Proof.
  intros [codes [Hlen Hall]].
  assert (Hincl : incl status_codes codes).
  { rewrite <- status_codes_reached. intros s Hs.
    apply in_map_iff in Hs as [c [<- _]]. apply Hall. }
  pose proof (NoDup_incl_length status_codes_nodup Hincl) as Hle.
  rewrite Hlen in Hle. cbn in Hle. lia.
Qed.

(** C2.  A record with a positive cash-back amount and no final-document
    date is 'Refund Pending', whatever its other fields, the package info and
    the runtime are. *)
Theorem refund_pending_first env c p z :
  cash_back_amt c = Some z ->
  0 < z ->
  truthy_str (Fnl_Doc_MO_Date c) = false ->
  status_of env c p = "Refund Pending".
Proof.
  intros Hc Hz Hf.
  rewrite status_of_select. unfold select.
  assert (G : guard1 c = true).
  { unfold guard1. rewrite Hc, Hf. cbn.
    replace (z =? 0) with false by (symmetry; apply Z.eqb_neq; lia).
    replace (z >? 0) with true by (symmetry; apply Z.gtb_lt; lia).
    reflexivity. }
  rewrite G. reflexivity.
Qed.

Lemma refund_pending_first_witness :
  status_of env_utc c_refund (Some package500) = "Refund Pending".
Proof.
  apply (refund_pending_first env_utc c_refund (Some package500) 100);
    [reflexivity | lia | reflexivity].
Defined.

(** C3, as amended.  When neither rule 1 nor rule 2 matches, the status is
    'Travel Pending' exactly when the hotel-booked and agency-booked dates
    are both set and days-until-travel is a number between -7 and 14: the
    rule has no lower bound of its own, and rule 2 leaves it the days from
    -7 on. *)
Theorem travel_pending_iff env c p :
  guard1 c = false ->
  guard2 c (days_of env c p) = false ->
  (status_of env c p = "Travel Pending" <->
   truthy_str (date_htl_book c) = true
   /\ truthy_str (date_agncy_book c) = true
   /\ exists z, days_of env c p = Some (Num z) /\ -7 <= z <= 14).
Proof.
  intros G1 G2. rewrite status_of_select. unfold select. rewrite G1, G2.
  destruct (guard3 c (days_of env c p)) eqn:G3.
  - split; [intros _|reflexivity].
    apply guard3_true in G3 as (Hh & Ha & z & Hd & Hz).
    repeat split; trivial. exists z. split; [exact Hd|].
    rewrite Hd in G2. apply guard2_false_number in G2. lia.
  - split.
    + destruct (guard4 _ _); [discriminate|].
      destruct (guard5 _ _); [discriminate|].
      destruct (guard6 _ _ _); [discriminate|].
      destruct (guard7 _ _); [discriminate|].
      destruct (guard8 _ _ _); [discriminate|].
      destruct (guard9 _); [destruct (le _ _)|]; discriminate.
    + intros (Hh & Ha & z & Hd & Hz).
      assert (guard3 c (days_of env c p) = true) as E.
      { apply guard3_true. repeat split; trivial. exists z. split; [trivial|lia]. }
      rewrite E in G3. discriminate.
Qed.

Lemma travel_pending_iff_witness :
  status_of env_utc (c_booked "2026-01-20") None = "Travel Pending" <->
  truthy_str (date_htl_book (c_booked "2026-01-20")) = true
  /\ truthy_str (date_agncy_book (c_booked "2026-01-20")) = true
  /\ exists z, days_of env_utc (c_booked "2026-01-20") None = Some (Num z)
               /\ -7 <= z <= 14.
Proof.
  apply (travel_pending_iff env_utc (c_booked "2026-01-20") None);
    reflexivity.
Defined.

(** C3, as stated, fails: a record with both booking dates set whose travel
    date was three days ago passes rules 1 and 2 and is 'Travel Pending',
    with a negative days-until-travel outside the window 0..14. *)
Lemma travel_pending_on_negative_days :
  guard1 (c_booked "2026-01-10") = false
  /\ guard2 (c_booked "2026-01-10")
            (days_of env_utc (c_booked "2026-01-10") None) = false
  /\ days_of env_utc (c_booked "2026-01-10") None = Some (Num (-3))
  /\ status_of env_utc (c_booked "2026-01-10") None = "Travel Pending"
  /\ ~ travel_pending_window (c_booked "2026-01-10")
         (days_of env_utc (c_booked "2026-01-10") None).
Proof.
  assert (D : days_of env_utc (c_booked "2026-01-10") None = Some (Num (-3)))
    by (vm_compute; reflexivity).
  repeat split; try (vm_compute; reflexivity).
  rewrite D. intros (_ & _ & z & Hz & Hr). injection Hz as <-. lia.
Qed.

(** C7.  Whenever rules 1 to 8 do not match and the guard of rule 9 holds,
    days-until-travel is not null, so the comparison [daysUntilTravel <= 75]
    of rule 9 never sees null. *)
Theorem rule9_days_not_null env c p :
  guard1 c = false ->
  guard2 c (days_of env c p) = false ->
  guard3 c (days_of env c p) = false ->
  guard4 c (days_of env c p) = false ->
  guard5 c (days_of env c p) = false ->
  guard6 c (complete_of env c p) (days_of env c p) = false ->
  guard7 c (complete_of env c p) = false ->
  guard8 c (complete_of env c p) (days_of env c p) = false ->
  guard9 c = true ->
  days_of env c p <> None.
Proof.
  intros _ _ _ _ _ _ _ _ G9.
  apply guard9_travel_date in G9.
  rewrite days_of_eq, G9. apply daysUntilDate_not_null. exact G9.
Qed.

Lemma rule9_days_not_null_witness :
  days_of env_utc c_reschedule None <> None.
Proof.
  apply (rule9_days_not_null env_utc c_reschedule None); reflexivity.
Defined.

(** ** The scenarios of the specification, evaluated *)

(** Package EM, 500 paid into [val_dep], 500 refundable required, no travel
    date: 'Ready to Schedule', and the line offers the transfer. *)
Example scenario_phone_scheduling :
  let r := determineStatus env_utc
             {| val_dep := Some 500; conf_deposit := Some 0;
                asgn_trv_dt := None; tm := None; conf_valid_code := None;
                cash_back_amt := None; Fnl_Doc_MO_Date := None;
                date_print_enc := None; decReady := None;
                date_htl_book := None; date_agncy_book := None;
                pkg_code2 := Some "EM" |} (Some package500) in
  status r = "Ready to Schedule"
  /\ isPhoneScheduling r = true
  /\ agentMessage r = "Great news! Your deposit is all paid up and you are ready to select your travel dates. Would you like me to transfer you to scheduling?".
Proof. vm_compute. repeat split. Qed.

(** Package ECRA, nothing paid, no travel date: 'Deposit Needed', and the
    line points to the web site. *)
Example scenario_online_scheduling :
  let r := determineStatus env_utc
             {| val_dep := None; conf_deposit := None;
                asgn_trv_dt := None; tm := None; conf_valid_code := None;
                cash_back_amt := None; Fnl_Doc_MO_Date := None;
                date_print_enc := None; decReady := None;
                date_htl_book := None; date_agncy_book := None;
                pkg_code2 := Some "ECRA" |} (Some package500) in
  status r = "Deposit Needed"
  /\ isOnlineScheduling r = FlagBool true
  /\ agentMessage r = "I see you have activated your vacation package. You can login to your activatemytrip.com account to select your travel dates and pay your deposit with a credit card.".
Proof. vm_compute. repeat split. Qed.

(** Travel date 100 days out, no rep, code CONFIRM, deposits complete:
    'Dates Scheduled'. *)
Example scenario_dates_scheduled :
  days_of env_utc (set_asgn_trv_dt (Some "2026-04-23") c_scheduled)
    (Some package500) = Some (Num 100)
  /\ status_of env_utc (set_asgn_trv_dt (Some "2026-04-23") c_scheduled)
       (Some package500) = "Dates Scheduled".
Proof. vm_compute. repeat split. Qed.

(** ** Deposit reconciliation *)

(** The lookup always hands over an expected total that is the sum of the two
    required deposits. *)
Lemma from_lookup_packageOfResults rows : from_lookup (packageOfResults rows).
Proof. destruct rows as [|pkg rest]; cbn; reflexivity. Qed.

Ltac z_cases :=
  rewrite ?Z.geb_leb, ?Z.gtb_ltb;
  repeat (match goal with
          | |- context [?a <=? ?b] => destruct (Z.leb_spec a b)
          | |- context [?a <? ?b] => destruct (Z.ltb_spec a b)
          | |- context [?a =? ?b] => destruct (Z.eqb_spec a b)
          end; cbv iota beta; cbn [andb orb negb]).

(** The completion policy of the deposit block, as a proposition on the paid
    amounts [a] and [b]. *)
Lemma depositsComplete_of_true a b p :
  depositsComplete_of a b p = true <->
  match p with
  | Some pi =>
      total_expected pi <= a + b
      \/ (0 < ref_dep pi /\ deposit pi = 0 /\ (ref_dep pi <= a \/ ref_dep pi <= b))
      \/ (0 < deposit pi /\ ref_dep pi = 0 /\ (deposit pi <= a \/ deposit pi <= b))
  | None => 0 < a \/ 0 < b
  end.
Proof.
  unfold depositsComplete_of. destruct p as [pi|]; z_cases;
    intuition (try lia; try discriminate).
Qed.

Lemma depositsComplete_of_mono a b a' b' p :
  a <= a' -> b <= b' ->
  depositsComplete_of a b p = true -> depositsComplete_of a' b' p = true.
Proof.
  intros Ha Hb. rewrite !depositsComplete_of_true.
  destruct p as [pi|]; intuition lia.
Qed.

(** C4, as amended.  With paidA = val_dep (default 0), paidB = conf_deposit
    (default 0), total_paid = paidA + paidB and, when package info is known,
    expected = refundable + confirmation deposit: deposits are complete iff
    (a) expected is known and total_paid >= expected, or (b) one of the two
    required deposits is positive, the other is zero, and either paid field
    alone reaches the positive one, or (c) package info is unknown and either
    paid field is positive; and remaining = max(0, expected - total_paid)
    when expected is known, else null. *)
Theorem deposit_reconciliation env c p :
  from_lookup p ->
  val_dep_paid (deposits_of env c p) = or_zero (val_dep c)
  /\ conf_deposit_paid (deposits_of env c p) = or_zero (conf_deposit c)
  /\ total_paid (deposits_of env c p)
     = or_zero (val_dep c) + or_zero (conf_deposit c)
  /\ expected_deposit (deposits_of env c p)
     = match p with
       | Some pi => Some (ref_dep pi + deposit pi)
       | None => None
       end
  /\ (complete (deposits_of env c p) = true <->
      match p with
      | Some pi =>
          ref_dep pi + deposit pi <= total_paid (deposits_of env c p)
          \/ (0 < ref_dep pi /\ deposit pi = 0
              /\ (ref_dep pi <= val_dep_paid (deposits_of env c p)
                  \/ ref_dep pi <= conf_deposit_paid (deposits_of env c p)))
          \/ (0 < deposit pi /\ ref_dep pi = 0
              /\ (deposit pi <= val_dep_paid (deposits_of env c p)
                  \/ deposit pi <= conf_deposit_paid (deposits_of env c p)))
      | None =>
          0 < val_dep_paid (deposits_of env c p)
          \/ 0 < conf_deposit_paid (deposits_of env c p)
      end)
  /\ remaining (deposits_of env c p)
     = match p with
       | Some pi =>
           Some (Z.max 0 (ref_dep pi + deposit pi
                          - total_paid (deposits_of env c p)))
       | None => None
       end.
Proof.
  intros Hp. rewrite deposits_of_eq.
  cbn [val_dep_paid conf_deposit_paid total_paid expected_deposit complete
       remaining].
  repeat split; try reflexivity.
  - destruct p as [pi|]; [cbn in Hp; rewrite Hp|]; reflexivity.
  - rewrite depositsComplete_of_true.
    destruct p as [pi|]; [cbn in Hp; rewrite Hp|]; tauto.
  - rewrite depositsComplete_of_true.
    destruct p as [pi|]; [cbn in Hp; rewrite Hp|]; tauto.
  - destruct p as [pi|]; [cbn in Hp; rewrite Hp|]; reflexivity.
Qed.

Lemma deposit_reconciliation_witness :
  complete (deposits_of env_utc paid500 (Some package500)) = true <->
  ref_dep package500 + deposit package500
    <= total_paid (deposits_of env_utc paid500 (Some package500))
  \/ (0 < ref_dep package500 /\ deposit package500 = 0
      /\ (ref_dep package500
            <= val_dep_paid (deposits_of env_utc paid500 (Some package500))
          \/ ref_dep package500
            <= conf_deposit_paid (deposits_of env_utc paid500 (Some package500))))
  \/ (0 < deposit package500 /\ ref_dep package500 = 0
      /\ (deposit package500
            <= val_dep_paid (deposits_of env_utc paid500 (Some package500))
          \/ deposit package500
            <= conf_deposit_paid (deposits_of env_utc paid500 (Some package500)))).
Proof.
  apply (deposit_reconciliation env_utc paid500 (Some package500)).
  reflexivity.
Defined.

(** C4, as stated, fails: with no package info and a paid field of -50, a
    paid field is nonzero, so clause (c) as worded makes the deposits
    complete, while the code tests [> 0] and leaves them incomplete. *)
Lemma nonzero_paid_field_is_not_enough :
  val_dep_paid (deposits_of env_utc (set_val_dep (Some (-50)) blank) None) = -50
  /\ conf_deposit_paid (deposits_of env_utc (set_val_dep (Some (-50)) blank) None) = 0
  /\ complete_as_worded (-50) 0 None = true
  /\ complete (deposits_of env_utc (set_val_dep (Some (-50)) blank) None) = false.
Proof. repeat split; vm_compute; reflexivity. Qed.

(** C5.  Raising either paid-deposit field, every other input fixed, never
    turns complete deposits into incomplete ones.  No sign condition on the
    amounts is needed, so the statement covers the nonnegative ones. *)
Theorem deposits_complete_monotone env c p :
  complete_of env c p = true ->
  (forall v, or_zero (val_dep c) <= v ->
             complete_of env (set_val_dep (Some v) c) p = true)
  /\ (forall v, or_zero (conf_deposit c) <= v ->
                complete_of env (set_conf_deposit (Some v) c) p = true).
Proof.
  rewrite complete_of_eq. intros H. split; intros v Hv;
    rewrite complete_of_eq;
    cbn [val_dep conf_deposit set_conf_deposit set_val_dep or_zero];
    revert H; apply depositsComplete_of_mono; lia.
Qed.

Lemma deposits_complete_monotone_witness :
  complete_of env_utc (set_val_dep (Some 700) paid500) (Some package500) = true
  /\ complete_of env_utc (set_conf_deposit (Some 20) paid500) (Some package500)
     = true.
Proof.
  destruct (deposits_complete_monotone env_utc paid500 (Some package500))
    as [Ha Hb]; [reflexivity|].
  split; [apply Ha | apply Hb]; cbn; lia.
Defined.

(** C6.  Two records that agree on the two paid-deposit fields and meet the
    same package info have the same [deposits.complete], however their other
    fields, the travel dates among them, and the clock differ. *)
Theorem deposits_complete_ignores_dates env1 env2 c1 c2 p :
  val_dep c1 = val_dep c2 ->
  conf_deposit c1 = conf_deposit c2 ->
  complete_of env1 c1 p = complete_of env2 c2 p.
Proof.
  intros H1 H2. rewrite !complete_of_eq, H1, H2. reflexivity.
Qed.

Lemma deposits_complete_ignores_dates_witness :
  complete_of env_utc c_waiting (Some package500)
  = complete_of env_fall_back c_scheduled (Some package500).
Proof.
  apply (deposits_complete_ignores_dates env_utc env_fall_back c_waiting
           c_scheduled (Some package500)); reflexivity.
Defined.

(** C10, as amended.  A record whose paid deposits do not sum below zero,
    paired with a found package info whose refundable and confirmation
    deposits are both 0, has complete deposits, also when both paid fields
    are 0; such a record with no assigned travel date on which rules 1 to 6
    do not match is 'Ready to Schedule', not 'Deposit Needed'. *)
Theorem zero_deposit_package env c pi :
  from_lookup (Some pi) ->
  ref_dep pi = 0 ->
  deposit pi = 0 ->
  0 <= or_zero (val_dep c) + or_zero (conf_deposit c) ->
  complete_of env c (Some pi) = true
  /\ (truthy_str (asgn_trv_dt c) = false ->
      guard1 c = false ->
      guard2 c (days_of env c (Some pi)) = false ->
      guard3 c (days_of env c (Some pi)) = false ->
      guard4 c (days_of env c (Some pi)) = false ->
      guard5 c (days_of env c (Some pi)) = false ->
      guard6 c (complete_of env c (Some pi)) (days_of env c (Some pi)) = false ->
      status_of env c (Some pi) = "Ready to Schedule"
      /\ status_of env c (Some pi) <> "Deposit Needed").
Proof.
  intros Hp Hr Hd Hsum.
  assert (Hc : complete_of env c (Some pi) = true).
  { rewrite complete_of_eq. apply depositsComplete_of_true.
    left. cbn in Hp. lia. }
  split; [exact Hc|].
  intros Hno G1 G2 G3 G4 G5 G6.
  assert (E : status_of env c (Some pi) = "Ready to Schedule").
  { rewrite status_of_select. unfold select.
    rewrite G1, G2, G3, G4, G5, G6.
    unfold guard7. rewrite Hc, Hno. reflexivity. }
  split; [exact E|]. rewrite E. discriminate.
Qed.

Lemma zero_deposit_package_witness :
  complete_of env_utc blank (Some free_package) = true
  /\ status_of env_utc blank (Some free_package) = "Ready to Schedule".
Proof.
  destruct (zero_deposit_package env_utc blank free_package) as [Hc Hs];
    [reflexivity | reflexivity | reflexivity | cbn; lia |].
  split; [exact Hc|]. apply Hs; reflexivity.
Defined.

(** C10, as stated, fails: a record whose validated deposit is -1, paired
    with a found package that requires no deposit, has no travel date and
    matches none of the rules 1 to 6, yet its deposits are incomplete and it
    is 'Deposit Needed'. *)
Lemma negative_paid_leaves_free_package_incomplete :
  ref_dep free_package = 0
  /\ deposit free_package = 0
  /\ truthy_str (asgn_trv_dt (set_val_dep (Some (-1)) blank)) = false
  /\ first_match
       (firstn 6 (decision_list (set_val_dep (Some (-1)) blank)
          (complete_of env_utc (set_val_dep (Some (-1)) blank) (Some free_package))
          (days_of env_utc (set_val_dep (Some (-1)) blank) (Some free_package))))
       "no match" = "no match"
  /\ complete_of env_utc (set_val_dep (Some (-1)) blank) (Some free_package)
     = false
  /\ status_of env_utc (set_val_dep (Some (-1)) blank) (Some free_package)
     = "Deposit Needed".
Proof. repeat split; vm_compute; reflexivity. Qed.

(** ** Days until the travel date *)

(** [ceil_div a b] is the least integer [q] with [a <= q * b]. *)
Lemma ceil_div_spec a b q :
  0 < b -> (ceil_div a b = q <-> (q - 1) * b < a <= q * b).
Proof.
  intros Hb. unfold ceil_div.
  pose proof (Z.div_mod (- a) b ltac:(lia)) as E.
  pose proof (Z.mod_pos_bound (- a) b Hb) as B.
  split; intros H; nia.
Qed.

Lemma ceil_div_multiple n b : 0 < b -> ceil_div (n * b) b = n.
Proof. intros Hb. apply ceil_div_spec; [exact Hb | lia]. Qed.

(** No date string, no count. *)
Lemma daysUntilDate_absent env d :
  truthy_str d = false -> daysUntilDate env d = None.
Proof.
  unfold daysUntilDate. destruct d as [s|]; [|reflexivity].
  intros ->. reflexivity.
Qed.

(** With a date string the count is the ceiling of the distance between the
    two local midnights, in days. *)
Lemma daysUntilDate_midnights env s t n t0 n0 :
  truthy_str (Some s) = true ->
  new_Date env s = Some t ->
  setHours0 (zone env) (Some t) = Some t0 ->
  setHours0 (zone env) (Some (now env)) = Some n0 ->
  n0 + (n - 1) * msPerDay < t0 <= n0 + n * msPerDay ->
  daysUntilDate env (Some s) = Some (Num n).
Proof.
  intros Hs Ht Ht0 Hn0 Hr. unfold daysUntilDate.
  rewrite Hs, Ht. cbn [negb]. rewrite Ht0, Hn0. unfold ceil_days.
  change (1000 * 60 * 60 * 24) with msPerDay.
  do 2 f_equal. apply ceil_div_spec; unfold msPerDay in *; lia.
Qed.

(** A date on the local day of the clock counts 0, in every zone. *)
Lemma daysUntilDate_today env s t n0 :
  truthy_str (Some s) = true ->
  new_Date env s = Some t ->
  local_day (zone env) t = local_day (zone env) (now env) ->
  setHours0 (zone env) (Some (now env)) = Some n0 ->
  daysUntilDate env (Some s) = Some (Num 0).
Proof.
  intros Hs Ht Hd Hn0.
  apply (daysUntilDate_midnights env s t 0 n0 n0); trivial.
  - unfold setHours0 in *. unfold local_day in Hd. rewrite Hd. exact Hn0.
  - unfold msPerDay; lia.
Qed.

(** In a zone whose offset never changes, a date [n] local days after the
    local day of the clock counts [n]; [n = 1] is tomorrow. *)
Lemma daysUntilDate_fixed_offset env k s t n t0 n0 :
  (forall u b, LocalTZA (zone env) u b = k) ->
  truthy_str (Some s) = true ->
  new_Date env s = Some t ->
  local_day (zone env) t = local_day (zone env) (now env) + n ->
  setHours0 (zone env) (Some t) = Some t0 ->
  setHours0 (zone env) (Some (now env)) = Some n0 ->
  daysUntilDate env (Some s) = Some (Num n).
Proof.
  intros Hk Hs Ht Hd Ht0 Hn0.
  apply (daysUntilDate_midnights env s t n t0 n0); trivial.
  unfold setHours0, TimeClip, UTC, local_day in *.
  rewrite Hk in Ht0, Hn0.
  destruct (Z.abs _ <=? _) in Ht0; [|discriminate].
  destruct (Z.abs _ <=? _) in Hn0; [|discriminate].
  injection Ht0 as <-. injection Hn0 as <-. rewrite Hd.
  unfold msPerDay. lia.
Qed.

(** C8, the code at the failing input.  A process in Los Angeles at noon of
    1 November 2026 is handed the travel date 2026-11-02T00:00:00: the date
    is on the next local day, the two local midnights are 25 hours apart,
    and [daysUntilDate] answers 2 where the specification says 1. *)
Theorem daysUntilDate_tomorrow_fall_back :
  new_Date env_fall_back "2026-11-02T00:00:00"
  = Some (civil_ms 2026 11 2 8 0 0)
  /\ local_day (zone env_fall_back) (civil_ms 2026 11 2 8 0 0)
     = local_day (zone env_fall_back) (now env_fall_back) + 1
  /\ setHours0 (zone env_fall_back) (Some (now env_fall_back))
     = Some (civil_ms 2026 11 1 7 0 0)
  /\ setHours0 (zone env_fall_back) (Some (civil_ms 2026 11 2 8 0 0))
     = Some (civil_ms 2026 11 1 7 0 0 + 25 * msPerHour)
  /\ daysUntilDate env_fall_back (Some "2026-11-02T00:00:00") = Some (Num 2).
Proof. repeat split; vm_compute; reflexivity. Qed.

(** The same date seen from a process in UTC counts 1. *)
Example daysUntilDate_tomorrow_utc :
  daysUntilDate (runtime utc_zone (civil_ms 2026 11 1 20 0 0))
    (Some "2026-11-02T00:00:00") = Some (Num 1).
Proof.
  apply (daysUntilDate_fixed_offset _ 0 _ (civil_ms 2026 11 2 0 0 0) 1
           (civil_ms 2026 11 2 0 0 0) (civil_ms 2026 11 1 0 0 0));
    try reflexivity.
Qed.

(** ** Phone normalisation *)

Lemma strip_non_digits_filter s :
  list_ascii_of_string (strip_non_digits s)
  = filter is_digit (list_ascii_of_string s).
Proof.
  induction s as [|ch r IH]; cbn; [reflexivity|].
  destruct (is_digit ch); cbn; rewrite IH; reflexivity.
Qed.

Lemma length_list_ascii s :
  List.length (list_ascii_of_string s) = String.length s.
Proof. induction s as [|ch r IH]; cbn; [|rewrite IH]; reflexivity. Qed.

Lemma startsWith_one ch r :
  startsWith (String ch r) "1" = Ascii.eqb ch "1".
Proof.
  cbn [startsWith]. destruct r; apply andb_true_r.
Qed.

(** C9.  [cleanPhone] keeps exactly the digits of its input, in order, and
    drops the first of them when there are eleven and it is '1'; the result
    holds digits only; empty and absent input give the empty string; the
    three sample numbers normalise as listed. *)
Theorem cleanPhone_normalises :
  (forall phone, list_ascii_of_string (cleanPhone phone) = clean_spec phone)
  /\ (forall phone, forallb is_digit (list_ascii_of_string (cleanPhone phone))
                    = true)
  /\ cleanPhone None = ""
  /\ cleanPhone (Some "") = ""
  /\ cleanPhone (Some "+1 (805) 555-1234") = "8055551234"
  /\ cleanPhone (Some "805-555-1234") = "8055551234".
Proof.
  assert (R : forall phone,
             list_ascii_of_string (cleanPhone phone) = clean_spec phone).
  { intros [s|]; [|reflexivity].
    unfold cleanPhone, clean_spec, digits_of.
    destruct (truthy_str (Some s)) eqn:T; cbn [negb].
    - rewrite <- strip_non_digits_filter, <- length_list_ascii.
      destruct (strip_non_digits s) as [|d rest] eqn:E; [reflexivity|].
      rewrite startsWith_one. cbn [list_ascii_of_string].
      destruct (_ && _); reflexivity.
    - cbn in T. apply negb_false_iff, String.eqb_eq in T. subst s.
      reflexivity. }
  split; [exact R|]. split; [|repeat split; reflexivity].
  intros phone. rewrite R. unfold clean_spec, digits_of.
  set (l := match phone with Some s => list_ascii_of_string s | None => [] end).
  assert (F : forallb is_digit (filter is_digit l) = true).
  { induction l as [|x l IH]; cbn; [reflexivity|].
    destruct (is_digit x) eqn:D; cbn; [rewrite D|]; exact IH. }
  destruct (filter is_digit l) as [|d rest]; [reflexivity|].
  destruct (_ && _); [|exact F].
  cbn in F. apply andb_true_iff in F. tauto.
Qed.

(** * Further properties of the code *)

Import Caspio Lookup Rims Hours Api More.

(** ** Phone normaliser *)

Lemma strip_digits_fixed s :
  forallb is_digit (list_ascii_of_string s) = true -> strip_non_digits s = s.
Proof.
  induction s as [|ch r IH]; cbn; [reflexivity|].
  intros H. apply andb_true_iff in H as [Hc Hr].
  rewrite Hc, (IH Hr). reflexivity.
Qed.

Lemma strip_non_digits_length s :
  (String.length (strip_non_digits s) <= String.length s)%nat.
Proof.
  induction s as [|ch r IH]; cbn; [lia|].
  destruct (is_digit ch); cbn; lia.
Qed.

(** The normalised number is never an eleven-character string that starts
    with 1. *)
Lemma cleanPhone_no_country_code phone :
  Nat.eqb (String.length (cleanPhone phone)) 11
  && startsWith (cleanPhone phone) "1" = false.
Proof.
  unfold cleanPhone. destruct (negb (truthy_str phone)); [reflexivity|].
  cbv zeta.
  set (d := strip_non_digits match phone with Some s => s | None => "" end).
  destruct (Nat.eqb (String.length d) 11 && startsWith d "1") eqn:E;
    [|exact E].
  apply andb_true_iff in E as [L _]. apply Nat.eqb_eq in L.
  destruct d as [|ch r]; [discriminate|]. cbn in L. cbn [substring1].
  replace (String.length r) with 10%nat by lia. reflexivity.
Qed.

Lemma strip_non_digits_digits s :
  forallb is_digit (list_ascii_of_string (strip_non_digits s)) = true.
Proof.
  induction s as [|ch r IH]; cbn; [reflexivity|].
  destruct (is_digit ch) eqn:D; cbn; [rewrite D|]; exact IH.
Qed.

Lemma cleanPhone_digits phone :
  forallb is_digit (list_ascii_of_string (cleanPhone phone)) = true.
Proof.
  unfold cleanPhone. destruct (negb (truthy_str phone)); [reflexivity|].
  cbv zeta.
  set (d := strip_non_digits match phone with Some s => s | None => "" end).
  pose proof (strip_non_digits_digits
                match phone with Some s => s | None => "" end) as H.
  fold d in H. destruct (_ && _); [|exact H].
  destruct d as [|ch r]; [reflexivity|]. cbn in H.
  apply andb_true_iff in H. tauto.
Qed.

(** X1.  Normalising a normalised phone number changes nothing. *)
Theorem cleanPhone_idempotent phone :
  cleanPhone (Some (cleanPhone phone)) = cleanPhone phone.
Proof.
  pose proof (cleanPhone_no_country_code phone) as N.
  pose proof (cleanPhone_digits phone) as D.
  remember (cleanPhone phone) as r eqn:R. clear R.
  unfold cleanPhone at 1.
  destruct (truthy_str (Some r)) eqn:T; cbn [negb].
  - rewrite (strip_digits_fixed r D), N. reflexivity.
  - cbn in T. apply negb_false_iff, String.eqb_eq in T. congruence.
Qed.

(** X2.  The normalised number is never longer than the input, and it is
    never an eleven-character string that starts with 1. *)
Theorem cleanPhone_bounds s :
  (String.length (cleanPhone (Some s)) <= String.length s)%nat
  /\ Nat.eqb (String.length (cleanPhone (Some s))) 11
     && startsWith (cleanPhone (Some s)) "1" = false.
Proof.
  split; [|apply cleanPhone_no_country_code].
  unfold cleanPhone. destruct (negb (truthy_str (Some s))); [cbn; lia|].
  cbv zeta. pose proof (strip_non_digits_length s) as L.
  destruct (_ && _); [|exact L].
  destruct (strip_non_digits s) as [|ch r]; cbn in *; lia.
Qed.

(** ** Scheduling channels *)

Lemma upper_char_idempotent ch : upper_char (upper_char ch) = upper_char ch.
Proof. destruct ch as [[] [] [] [] [] [] [] []]; reflexivity. Qed.

Lemma toUpperCase_idempotent s : toUpperCase (toUpperCase s) = toUpperCase s.
Proof.
  induction s as [|ch r IH]; cbn; [reflexivity|].
  rewrite upper_char_idempotent, IH. reflexivity.
Qed.

Lemma toUpperCase_truthy s :
  truthy_str (Some (toUpperCase s)) = truthy_str (Some s).
Proof. destruct s; reflexivity. Qed.

Lemma isPhoneSchedulingPackage_upper s :
  isPhoneSchedulingPackage (Some (toUpperCase s))
  = isPhoneSchedulingPackage (Some s).
Proof.
  unfold isPhoneSchedulingPackage.
  rewrite toUpperCase_truthy, toUpperCase_idempotent. reflexivity.
Qed.

Lemma online_not_phone s :
  includes ONLINE_SCHEDULING_PACKAGES (toUpperCase s) = true ->
  isPhoneSchedulingPackage (Some s) = false.
Proof.
  unfold isPhoneSchedulingPackage, ONLINE_SCHEDULING_PACKAGES.
  cbn [includes]. intros H.
  destruct (negb (truthy_str (Some s))); [reflexivity|]. cbv zeta.
  repeat (apply orb_true_iff in H as [H|H];
          [apply String.eqb_eq in H; rewrite <- H; reflexivity|]).
  discriminate.
Qed.

(** X3.  The two channel flags of a result are never both set: a package
    code on the online-scheduling list is not a phone-scheduling code. *)
Theorem channels_exclusive env c p :
  truthy_flag (isOnlineScheduling (determineStatus env c p))
  && isPhoneScheduling (determineStatus env c p) = false.
Proof.
  unfold determineStatus.
  destruct (select c _ _ _ _) as [[st lbl] msg].
  cbn [isOnlineScheduling isPhoneScheduling].
  destruct (pkg_code2 c) as [s|]; [|reflexivity].
  destruct (truthy_str (Some s)); [|reflexivity].
  cbn [truthy_flag].
  destruct (includes _ _) eqn:E; [|reflexivity].
  rewrite (online_not_phone s E). reflexivity.
Qed.

(** X4.  Letter case of the package code does not matter: a record and the
    same record with its package code in upper case get the same result,
    field by field. *)
Theorem package_code_case_insensitive env c p s :
  pkg_code2 c = Some s ->
  determineStatus env (set_pkg_code2 (Some (toUpperCase s)) c) p
  = determineStatus env c p.
Proof.
  intros H. unfold determineStatus.
  cbn [set_pkg_code2 pkg_code2 val_dep conf_deposit asgn_trv_dt].
  rewrite H, toUpperCase_truthy, toUpperCase_idempotent,
    isPhoneSchedulingPackage_upper.
  destruct s as [|ch r]; reflexivity.
Qed.

Lemma package_code_case_insensitive_witness :
  determineStatus env_utc
    (set_pkg_code2 (Some (toUpperCase "em")) c_paid_far_ready) None
  = determineStatus env_utc c_paid_far_ready None.
Proof.
  apply (package_code_case_insensitive env_utc c_paid_far_ready None "em").
  reflexivity.
Defined.

(** ** More on the status chain *)

Lemma statusLabel_select env c p :
  statusLabel (determineStatus env c p)
  = snd (fst (select c
                (truthy_flag (isOnlineScheduling (determineStatus env c p)))
                (isPhoneScheduling (determineStatus env c p))
                (complete_of env c p) (days_of env c p))).
Proof.
  unfold status_of, complete_of, deposits_of, days_of, determineStatus.
  destruct (select c _ _ _ _) as [[st lbl] msg] eqn:E.
  cbn [statusLabel isOnlineScheduling isPhoneScheduling deposits complete
       daysUntilTravel].
  rewrite E. reflexivity.
Qed.

Lemma rep_named_blank v : rep_named v = negb (rep_blank v).
Proof.
  unfold rep_named, rep_blank. destruct v as [s|]; [|reflexivity].
  destruct (truthy_str (Some s)); cbn; [|reflexivity].
  destruct (String.eqb (trim s) ""); reflexivity.
Qed.

(** The default branch is the only one that assigns 'Deposit Needed'. *)
Lemma deposit_needed_guards env c p :
  status_of env c p = "Deposit Needed" ->
  guard5 c (days_of env c p) = false
  /\ guard6 c (complete_of env c p) (days_of env c p) = false
  /\ guard7 c (complete_of env c p) = false
  /\ guard8 c (complete_of env c p) (days_of env c p) = false
  /\ guard9 c = false.
Proof.
  rewrite status_of_select. unfold select.
  destruct (guard1 c); [discriminate|].
  destruct (guard2 c _); [discriminate|].
  destruct (guard3 c _); [discriminate|].
  destruct (guard4 c _); [discriminate|].
  destruct (guard5 c _); [discriminate|].
  destruct (guard6 c _ _); [discriminate|].
  destruct (guard7 c _); [discriminate|].
  destruct (guard8 c _ _); [discriminate|].
  destruct (guard9 c); [destruct (le _ _); discriminate|].
  intros _. repeat split; reflexivity.
Qed.

(** X5.  A final-document date settles the status: the record is 'Trip
    Complete' whatever its other fields, the package info and the clock
    are, a positive cash-back amount included. *)
Theorem final_document_means_trip_complete env c p :
  truthy_str (Fnl_Doc_MO_Date c) = true ->
  status_of env c p = "Trip Complete".
Proof.
  intros H. rewrite status_of_select. unfold select, guard1, guard2.
  rewrite H. cbn [negb]. rewrite andb_false_r. reflexivity.
Qed.

Lemma final_document_means_trip_complete_witness :
  status_of env_utc c_complete (Some package500) = "Trip Complete".
Proof.
  apply (final_document_means_trip_complete env_utc c_complete
           (Some package500)).
  reflexivity.
Defined.

(** X6.  Without a travel date days-until-travel is null and only four
    statuses are possible; with no cash-back refund and no final-document
    date pending, the status is 'Ready to Schedule' when the deposits are
    complete and 'Deposit Needed' when they are not. *)
Theorem no_travel_date_statuses env c p :
  truthy_str (asgn_trv_dt c) = false ->
  days_of env c p = None
  /\ In (status_of env c p)
        ["Refund Pending"; "Trip Complete"; "Ready to Schedule";
         "Deposit Needed"]
  /\ (guard1 c = false ->
      truthy_str (Fnl_Doc_MO_Date c) = false ->
      status_of env c p
      = if complete_of env c p then "Ready to Schedule" else "Deposit Needed").
Proof.
  intros H.
  destruct (no_travel_date_guards c (complete_of env c p) env p H)
    as (D & G3 & G4 & G5 & G6).
  split; [exact D|].
  assert (G2 : guard2 c None = truthy_str (Fnl_Doc_MO_Date c)).
  { unfold guard2. cbn. apply orb_false_r. }
  assert (G9 : guard9 c = false) by (unfold guard9; rewrite H; reflexivity).
  assert (G8 : guard8 c (complete_of env c p) None = false).
  { unfold guard8. rewrite H. cbn. rewrite andb_false_r. reflexivity. }
  assert (G7 : guard7 c (complete_of env c p) = complete_of env c p).
  { unfold guard7. rewrite H. apply andb_true_r. }
  rewrite status_of_select. unfold select.
  rewrite D, G2, G3, G4, G5, G6, G7, G8, G9.
  split.
  - destruct (guard1 c); [cbn; tauto|].
    destruct (truthy_str (Fnl_Doc_MO_Date c)); [cbn; tauto|].
    destruct (complete_of env c p); cbn; tauto.
  - intros -> ->. destruct (complete_of env c p); reflexivity.
Qed.

Lemma no_travel_date_statuses_witness :
  days_of env_utc paid500 None = None
  /\ status_of env_utc paid500 None
     = if complete_of env_utc paid500 None then "Ready to Schedule"
       else "Deposit Needed".
Proof.
  destruct (no_travel_date_statuses env_utc paid500 None) as (D & _ & S);
    [reflexivity|].
  split; [exact D | apply S; reflexivity].
Defined.

(** X7.  A travel date that the runtime cannot parse gives NaN, not null,
    for days-until-travel; every threshold test then fails, so the status
    can only be 'Refund Pending', 'Trip Complete' (through a final-document
    date), 'Scheduled Not Confirmed - Can Confirm' or 'Deposit Needed'. *)
Theorem unparsable_travel_date env c p s :
  asgn_trv_dt c = Some s ->
  truthy_str (Some s) = true ->
  new_Date env s = None ->
  days_of env c p = Some NaN
  /\ In (status_of env c p)
        ["Refund Pending"; "Trip Complete";
         "Scheduled Not Confirmed - Can Confirm"; "Deposit Needed"]
  /\ (status_of env c p = "Trip Complete" ->
      truthy_str (Fnl_Doc_MO_Date c) = true).
Proof.
  intros Hs Ht Hp.
  assert (D : days_of env c p = Some NaN).
  { rewrite days_of_eq, Hs, Ht. unfold daysUntilDate. rewrite Ht, Hp.
    reflexivity. }
  split; [exact D|].
  rewrite status_of_select. unfold select. rewrite D.
  unfold guard2, guard3, guard4, guard5, guard6, guard7, guard8.
  rewrite Hs, Ht. cbn [not_null ToNumber lt le gt negb].
  rewrite ?andb_false_r, ?orb_false_r.
  destruct (guard1 c); [cbn; split; [tauto|discriminate]|].
  destruct (truthy_str (Fnl_Doc_MO_Date c)); [cbn; tauto|].
  destruct (guard9 c); cbn; split; try tauto; discriminate.
Qed.

Lemma unparsable_travel_date_witness :
  days_of env_utc c_bad_date None = Some NaN
  /\ status_of env_utc c_bad_date None
     = "Scheduled Not Confirmed - Can Confirm".
Proof.
  destruct (unparsable_travel_date env_utc c_bad_date None "soon")
    as (D & _ & _); [reflexivity | reflexivity | reflexivity |].
  split; [exact D | reflexivity].
Defined.

(** X8.  The display label is a function of the status code: the code
    itself, except 'Waiting for Travel Rep' (lower-case "for"), 'Needs
    Rescheduling' and 'Needs Confirmation' for the two rule-9 codes. *)
Theorem label_follows_status env c p :
  statusLabel (determineStatus env c p) = label_of (status_of env c p).
Proof.
  rewrite statusLabel_select, status_of_select. unfold select.
  repeat match goal with
         | |- context [if ?g then _ else _] => destruct g
         end; reflexivity.
Qed.

(** X9.  Complete deposits do not exclude 'Deposit Needed': a record with
    complete deposits gets it only when a travel date is set,
    days-until-travel is NaN or above 75, and the dates are confirmed or the
    decision-ready flag is true. *)
Theorem deposit_needed_with_complete_deposits env c p :
  complete_of env c p = true ->
  status_of env c p = "Deposit Needed" ->
  truthy_str (asgn_trv_dt c) = true
  /\ (exists n, days_of env c p = Some n /\ le n 75 = false)
  /\ (conf_valid_code c = Some "CONFIRM" \/ decReady c = Some true).
Proof.
  intros Hc Hs.
  destruct (deposit_needed_guards env c p Hs) as (G5 & G6 & G7 & G8 & G9).
  rewrite Hc in G6, G7, G8.
  assert (Ht : truthy_str (asgn_trv_dt c) = true).
  { unfold guard7 in G7. cbn in G7. apply negb_false_iff in G7. exact G7. }
  split; [exact Ht|]. split.
  - pose proof (daysUntilDate_not_null env (asgn_trv_dt c) Ht) as Hn.
    rewrite days_of_eq, Ht in *.
    destruct (daysUntilDate env (asgn_trv_dt c)) as [n|]; [|congruence].
    exists n. split; [reflexivity|].
    unfold guard5, guard6 in *. rewrite Ht, rep_named_blank in *.
    cbn in G5, G6. destruct (rep_blank (tm c)); cbn in G5, G6;
      destruct (le n 75); trivial; discriminate.
  - unfold guard9 in G9. rewrite Ht in G9. cbn in G9.
    unfold strict_eq_str, not_true in G9.
    destruct (conf_valid_code c) as [v|].
    + destruct (String.eqb v "CONFIRM") eqn:E.
      * left. apply String.eqb_eq in E. congruence.
      * cbn in G9. destruct (decReady c) as [[]|]; try discriminate.
        right; reflexivity.
    + cbn in G9. destruct (decReady c) as [[]|]; try discriminate.
      right; reflexivity.
Qed.

Lemma deposit_needed_with_complete_deposits_witness :
  truthy_str (asgn_trv_dt c_paid_far_ready) = true
  /\ (exists n, days_of env_utc c_paid_far_ready None = Some n
                /\ le n 75 = false)
  /\ (conf_valid_code c_paid_far_ready = Some "CONFIRM"
      \/ decReady c_paid_far_ready = Some true).
Proof.
  apply (deposit_needed_with_complete_deposits env_utc c_paid_far_ready None);
    reflexivity.
Defined.

(** X10.  For a package info that comes from the lookup and paid amounts
    that are not negative, the single-deposit clauses never decide: the
    deposits are complete exactly when the total paid reaches the expected
    total, which is exactly when nothing remains. *)
Theorem complete_iff_nothing_remains env c rows :
  0 <= or_zero (val_dep c) ->
  0 <= or_zero (conf_deposit c) ->
  packageOfResults rows <> None ->
  (complete_of env c (packageOfResults rows) = true <->
   exists e,
     expected_deposit (deposits_of env c (packageOfResults rows)) = Some e
     /\ e <= total_paid (deposits_of env c (packageOfResults rows)))
  /\ (complete_of env c (packageOfResults rows) = true <->
      remaining (deposits_of env c (packageOfResults rows)) = Some 0).
Proof.
  intros Ha Hb Hp.
  pose proof (from_lookup_packageOfResults rows) as W.
  rewrite complete_of_eq, deposits_of_eq.
  cbn [remaining total_paid expected_deposit].
  rewrite depositsComplete_of_true.
  destruct (packageOfResults rows) as [pi|]; [|congruence].
  cbn in W. split; split.
  - intros H. exists (total_expected pi). split; [reflexivity|lia].
  - intros [e [H1 H2]]. injection H1 as H1. lia.
  - intros H. f_equal. lia.
  - intros H. injection H as H. lia.
Qed.

Lemma complete_iff_nothing_remains_witness :
  complete_of env_utc paid500
    (packageOfResults [{| row_ref_dep := Some 500; row_deposit := None |}])
  = true <->
  remaining (deposits_of env_utc paid500
    (packageOfResults [{| row_ref_dep := Some 500; row_deposit := None |}]))
  = Some 0.
Proof.
  apply (complete_iff_nothing_remains env_utc paid500
           [{| row_ref_dep := Some 500; row_deposit := None |}]);
    [cbn; lia | cbn; lia | discriminate].
Defined.

(** ** More on the day counter *)

(** X11.  In a process whose zone has a fixed offset the count is the
    difference of the two local calendar days, so it does not depend on the
    time of day of the clock or of the travel date. *)
Theorem days_count_is_local_day_difference env k s t t0 n0 :
  (forall u b, LocalTZA (zone env) u b = k) ->
  truthy_str (Some s) = true ->
  new_Date env s = Some t ->
  setHours0 (zone env) (Some t) = Some t0 ->
  setHours0 (zone env) (Some (now env)) = Some n0 ->
  daysUntilDate env (Some s)
  = Some (Num (local_day (zone env) t - local_day (zone env) (now env))).
Proof.
  intros Hk Hs Ht Ht0 Hn0.
  apply (daysUntilDate_fixed_offset env k s t _ t0 n0); trivial. lia.
Qed.

Lemma days_count_is_local_day_difference_witness :
  daysUntilDate env_utc (Some "2026-03-01T18:45:00")
  = Some (Num (local_day (zone env_utc) (civil_ms 2026 3 1 18 45 0)
               - local_day (zone env_utc) (now env_utc))).
Proof.
  apply (days_count_is_local_day_difference env_utc 0 "2026-03-01T18:45:00"
           (civil_ms 2026 3 1 18 45 0) (civil_ms 2026 3 1 0 0 0)
           (civil_ms 2026 1 13 0 0 0)); reflexivity.
Defined.

(** ** Credential cache *)

(** The cache after a successful exchange that answered [data] at [later]. *)
Lemma getCaspioToken_refresh st now later hs data :
  cache_valid st now = false ->
  getCaspioToken st now
    (Responded {| ok := true; http_status := hs; body := Some data |}) later
  = {| token_result := Returned (access_token data);
       token_cache :=
         {| caspioToken := access_token data;
            tokenExpiry :=
              Some (match expires_in data with
                    | Some e => Num (later + e * 1000 - 60000)
                    | None => NaN
                    end) |};
       auth_contacted := true |}.
Proof. intros H. unfold getCaspioToken. rewrite H. reflexivity. Qed.

Lemma getCaspioToken_hit st now answer later :
  cache_valid st now = true ->
  getCaspioToken st now answer later
  = {| token_result := Returned (caspioToken st);
       token_cache := st; auth_contacted := false |}.
Proof. intros H. unfold getCaspioToken. rewrite H. reflexivity. Qed.

Lemma getCaspioToken_miss_contacts st now answer later :
  cache_valid st now = false ->
  auth_contacted (getCaspioToken st now answer later) = true.
Proof.
  intros H. unfold getCaspioToken. rewrite H.
  destruct answer as [|r]; [reflexivity|].
  destruct (negb (ok r)); [reflexivity|]. destruct (body r); reflexivity.
Qed.

(** X12.  After a successful exchange the token is served from the cache,
    without contacting the token endpoint and without touching the cache,
    on every call made before the stored expiry, that is less than
    [expires_in * 1000 - 60000] ms after the answer arrived. *)
Theorem token_reused_before_expiry st now later hs data tk e now2 answer2 later2 :
  cache_valid st now = false ->
  access_token data = Some tk ->
  tk <> "" ->
  expires_in data = Some e ->
  later + e * 1000 - 60000 <> 0 ->
  now2 < later + e * 1000 - 60000 ->
  token_result
    (getCaspioToken st now
       (Responded {| ok := true; http_status := hs; body := Some data |}) later)
  = Returned (Some tk)
  /\ getCaspioToken
       (token_cache
          (getCaspioToken st now
             (Responded {| ok := true; http_status := hs; body := Some data |})
             later))
       now2 answer2 later2
     = {| token_result := Returned (Some tk);
          token_cache :=
            token_cache
              (getCaspioToken st now
                 (Responded {| ok := true; http_status := hs;
                               body := Some data |}) later);
          auth_contacted := false |}.
Proof.
  intros Hv Ht Hne He Hz Hlt.
  rewrite (getCaspioToken_refresh st now later hs data Hv), Ht, He.
  cbn [token_result token_cache]. split; [reflexivity|].
  apply getCaspioToken_hit.
  unfold cache_valid, truthy_jsnum, now_before.
  cbn [caspioToken tokenExpiry ToNumber truthy_str].
  replace (String.eqb tk "") with false
    by (symmetry; apply String.eqb_neq; exact Hne).
  replace (later + e * 1000 - 60000 =? 0) with false
    by (symmetry; apply Z.eqb_neq; exact Hz).
  replace (now2 <? later + e * 1000 - 60000) with true
    by (symmetry; apply Z.ltb_lt; exact Hlt).
  reflexivity.
Qed.

Lemma token_reused_before_expiry_witness :
  getCaspioToken
    (token_cache
       (getCaspioToken initial 1000
          (Responded {| ok := true; http_status := 200;
                        body := Some {| access_token := Some "abc";
                                        expires_in := Some 3600 |} |}) 1200))
    3000000 Rejected 3000001
  = {| token_result := Returned (Some "abc");
       token_cache :=
         token_cache
           (getCaspioToken initial 1000
              (Responded {| ok := true; http_status := 200;
                            body := Some {| access_token := Some "abc";
                                            expires_in := Some 3600 |} |}) 1200);
       auth_contacted := false |}.
Proof.
  apply (token_reused_before_expiry initial 1000 1200 200
           {| access_token := Some "abc"; expires_in := Some 3600 |}
           "abc" 3600 3000000 Rejected 3000001);
    [reflexivity | reflexivity | discriminate | reflexivity | cbn; lia
    | cbn; lia].
Defined.

(** X13.  A call that does not contact the token endpoint returns the
    cached token, and that token is not expired: the cache holds a non-empty
    token and an expiry strictly later than the clock. *)
Theorem token_served_from_cache_is_fresh st now answer later :
  auth_contacted (getCaspioToken st now answer later) = false ->
  exists tk x,
    caspioToken st = Some tk /\ tk <> ""
    /\ tokenExpiry st = Some (Num x) /\ now < x
    /\ token_result (getCaspioToken st now answer later) = Returned (Some tk)
    /\ token_cache (getCaspioToken st now answer later) = st.
Proof.
  destruct (cache_valid st now) eqn:V.
  - intros _. rewrite (getCaspioToken_hit st now answer later V).
    unfold cache_valid in V.
    apply andb_true_iff in V as [V V3]. apply andb_true_iff in V as [V1 V2].
    destruct st as [[tk|] [[|x]|]]; cbn in *; try discriminate.
    exists tk, x. repeat split; trivial.
    + apply negb_true_iff, String.eqb_neq in V1. exact V1.
    + apply Z.ltb_lt; exact V3.
  - rewrite (getCaspioToken_miss_contacts st now answer later V).
    discriminate.
Qed.

Lemma token_served_from_cache_is_fresh_witness :
  exists tk x,
    caspioToken {| caspioToken := Some "abc"; tokenExpiry := Some (Num 500) |}
    = Some tk /\ tk <> ""
    /\ tokenExpiry {| caspioToken := Some "abc"; tokenExpiry := Some (Num 500) |}
       = Some (Num x) /\ 499 < x
    /\ token_result
         (getCaspioToken
            {| caspioToken := Some "abc"; tokenExpiry := Some (Num 500) |}
            499 Rejected 499) = Returned (Some tk)
    /\ token_cache
         (getCaspioToken
            {| caspioToken := Some "abc"; tokenExpiry := Some (Num 500) |}
            499 Rejected 499)
       = {| caspioToken := Some "abc"; tokenExpiry := Some (Num 500) |}.
Proof.
  apply (token_served_from_cache_is_fresh
           {| caspioToken := Some "abc"; tokenExpiry := Some (Num 500) |}
           499 Rejected 499).
  reflexivity.
Defined.

Lemma getCaspioToken_threw st now answer later e :
  token_result (getCaspioToken st now answer later) = Threw e ->
  token_cache (getCaspioToken st now answer later) = st
  /\ auth_contacted (getCaspioToken st now answer later) = true
  /\ cache_valid st now = false.
Proof.
  unfold getCaspioToken. destruct (cache_valid st now); [discriminate|].
  destruct answer as [|r]; [intros _; repeat split|].
  destruct (negb (ok r)); [intros _; repeat split|].
  destruct (body r); [discriminate|intros _; repeat split].
Qed.

(** X14.  A call that throws leaves the cache exactly as it was, and it has
    contacted the token endpoint: a failed exchange neither clears nor
    replaces a stored token. *)
Theorem failed_exchange_keeps_cache st now answer later e :
  token_result (getCaspioToken st now answer later) = Threw e ->
  token_cache (getCaspioToken st now answer later) = st
  /\ auth_contacted (getCaspioToken st now answer later) = true
  /\ cache_valid st now = false.
Proof. apply getCaspioToken_threw. Qed.

Lemma failed_exchange_keeps_cache_witness :
  token_cache
    (getCaspioToken
       {| caspioToken := Some "abc"; tokenExpiry := Some (Num 500) |} 600
       (Responded {| ok := false; http_status := 401; body := None |}) 650)
  = {| caspioToken := Some "abc"; tokenExpiry := Some (Num 500) |}.
Proof.
  apply (failed_exchange_keeps_cache
           {| caspioToken := Some "abc"; tokenExpiry := Some (Num 500) |} 600
           (Responded {| ok := false; http_status := 401; body := None |})
           650 (AuthFailed 401)).
  reflexivity.
Defined.

(** X15.  A token whose answer gives a lifetime of 60 seconds or less, or
    no lifetime at all, is never served from the cache: every later call
    contacts the token endpoint again. *)
Theorem short_lived_token_never_reused st now later hs data now2 answer2 later2 :
  cache_valid st now = false ->
  match expires_in data with Some e => e <= 60 | None => True end ->
  later <= now2 ->
  auth_contacted
    (getCaspioToken
       (token_cache
          (getCaspioToken st now
             (Responded {| ok := true; http_status := hs; body := Some data |})
             later))
       now2 answer2 later2) = true.
Proof.
  intros Hv He Hl.
  rewrite (getCaspioToken_refresh st now later hs data Hv).
  cbn [token_cache]. apply getCaspioToken_miss_contacts.
  unfold cache_valid, truthy_jsnum, now_before. cbn [tokenExpiry ToNumber].
  destruct (expires_in data) as [e|].
  - replace (now2 <? later + e * 1000 - 60000) with false
      by (symmetry; apply Z.ltb_ge; lia).
    apply andb_false_r.
  - rewrite andb_false_r. reflexivity.
Qed.

Lemma short_lived_token_never_reused_witness :
  auth_contacted
    (getCaspioToken
       (token_cache
          (getCaspioToken initial 1000
             (Responded {| ok := true; http_status := 200;
                           body := Some {| access_token := Some "abc";
                                           expires_in := Some 60 |} |}) 1200))
       1200 Rejected 1201) = true.
Proof.
  apply (short_lived_token_never_reused initial 1000 1200 200
           {| access_token := Some "abc"; expires_in := Some 60 |}
           1200 Rejected 1201); [reflexivity | cbn; lia | lia].
Defined.

(** ** Table query client *)





(** ** Package lookup *)

Lemma lookup_reads_at_most_one d code :
  (List.length (snd (getPackageFromDestsel d code)) <= 1)%nat.
Proof.
  unfold getPackageFromDestsel.
  destruct code as [s|]; [|cbn; lia].
  destruct (negb (truthy_str (Some s))); [cbn; lia|]. cbv zeta.
  destruct (d _) as [[|row rest]|e]; cbn; lia.
Qed.

(** X18.  The lookup does not depend on the letter case of the code: the
    package returned, or null, and the filter sent are the same for a code
    and for its upper-case form. *)
Theorem lookup_case_insensitive d s :
  getPackageFromDestsel d (Some (toUpperCase s))
  = getPackageFromDestsel d (Some s).
Proof.
  unfold getPackageFromDestsel.
  rewrite toUpperCase_truthy, toUpperCase_idempotent. reflexivity.
Qed.

(** X19.  A package returned by the lookup carries an upper-case code, an
    expected total equal to the sum of its two required deposits, and was
    obtained with exactly one read, filtered on that code; a null result
    costs at most one read. *)
Theorem lookup_result_shape d code :
  (forall pkg sent,
     getPackageFromDestsel d code = (Some pkg, sent) ->
     found pkg = true
     /\ toUpperCase (pkgcode2 pkg) = pkgcode2 pkg
     /\ total_expected (info pkg) = ref_dep (info pkg) + deposit (info pkg)
     /\ sent = [package_clause (pkgcode2 pkg)])
  /\ (forall sent,
        getPackageFromDestsel d code = (None, sent) ->
        (List.length sent <= 1)%nat
        /\ (truthy_str code = false -> sent = [])).
Proof.
  unfold getPackageFromDestsel. split.
  - intros pkg sent. destruct code as [s|]; [|discriminate].
    destruct (negb (truthy_str (Some s))); [discriminate|]. cbv zeta.
    destruct (d _) as [[|row rest]|e]; try discriminate.
    intros H. injection H as <- <-. cbn.
    rewrite toUpperCase_idempotent. repeat split.
  - intros sent. destruct code as [s|].
    + destruct (truthy_str (Some s)) eqn:T; cbn [negb].
      * destruct (d _) as [[|row rest]|e]; try discriminate;
          intros H; injection H as <-; split; cbn; try lia; discriminate.
      * intros H; injection H as <-. split; [cbn; lia | reflexivity].
    + intros H; injection H as <-. split; [cbn; lia | reflexivity].
Qed.

Lemma lookup_result_shape_witness :
  exists pkg,
    getPackageFromDestsel sample_destsel (Some "em")
    = (Some pkg, [package_clause "EM"])
    /\ pkgcode2 pkg = "EM"
    /\ total_expected (info pkg) = ref_dep (info pkg) + deposit (info pkg).
Proof.
  destruct (lookup_result_shape sample_destsel (Some "em")) as [H _].
  eexists. split; [reflexivity|]. split; [reflexivity|].
  destruct (H _ _ eq_refl) as (_ & _ & Ht & _). exact Ht.
Defined.

(** ** Business hours *)

Lemma whole_seconds_div w d :
  0 < d -> (w / 1000 * 1000) / (1000 * d) = w / (1000 * d).
Proof.
  intros Hd. rewrite <- !Z.div_div by lia. rewrite Z.div_mul by lia.
  reflexivity.
Qed.

(** X20.  In a process whose own zone has a fixed offset, whatever that
    offset is, [isBusinessHours] holds exactly when the wall clock of
    America/Los_Angeles shows Monday to Friday and an hour from 9 to 16. *)
Theorem business_hours_follow_los_angeles env la k :
  (forall u b, LocalTZA (zone env) u b = k) ->
  (isBusinessHours env la = true <->
   1 <= WeekDay (LocalTime la (now env)) <= 5
   /\ 9 <= HourFromTime (LocalTime la (now env)) < 17).
Proof.
  intros Hk. unfold isBusinessHours, wall_clock_date. cbv zeta.
  assert (E : LocalTime (zone env)
                (UTC (zone env) (LocalTime la (now env) / 1000 * 1000))
              = LocalTime la (now env) / 1000 * 1000).
  { unfold LocalTime at 1, UTC. rewrite !Hk. lia. }
  rewrite E. unfold WeekDay, HourFromTime, Day, msPerDay, msPerHour.
  change 86400000 with (1000 * 86400). change 3600000 with (1000 * 3600).
  rewrite !whole_seconds_div by lia.
  rewrite !Z.geb_leb, !andb_true_iff, !Z.leb_le, Z.ltb_lt. lia.
Qed.

Lemma business_hours_follow_los_angeles_witness :
  isBusinessHours (runtime utc_zone (civil_ms 2026 1 13 18 0 0))
    los_angeles_2026 = true.
Proof.
  apply (business_hours_follow_los_angeles
           (runtime utc_zone (civil_ms 2026 1 13 18 0 0)) los_angeles_2026 0);
    [reflexivity | vm_compute; repeat split; discriminate].
Defined.

(** ** Ordering of the matched records *)

Lemma insert_perm cmp a l : Permutation (a :: l) (Rims.insert cmp a l).
Proof.
  induction l as [|b rest IH]; cbn; [reflexivity|].
  destruct (gt (cmp a b) 0); [|reflexivity].
  rewrite perm_swap. apply perm_skip. exact IH.
Qed.

Lemma sort_perm cmp l : Permutation l (Rims.sort cmp l).
Proof.
  induction l as [|a rest IH]; cbn; [reflexivity|].
  rewrite <- insert_perm. apply perm_skip. exact IH.
Qed.

Lemma sort_length cmp l : List.length (Rims.sort cmp l) = List.length l.
Proof. symmetry. apply Permutation_length, sort_perm. Qed.

Lemma newer_or_same_trans env a b c :
  newer_or_same env a b -> newer_or_same env b c -> newer_or_same env a c.
Proof.
  intros (x & y & Hx & Hy & H1) (y' & z & Hy' & Hz & H2).
  rewrite Hy in Hy'. injection Hy' as <-.
  exists x, z. repeat split; trivial. lia.
Qed.

Lemma insert_sorted env a l :
  entered env a <> NaN ->
  valid_dates env l ->
  StronglySorted (newer_or_same env) l ->
  StronglySorted (newer_or_same env) (Rims.insert (by_entry_date env) a l).
Proof.
  intros Ha Hl Hs. induction Hs as [|b rest Hs IH Hb]; cbn.
  - constructor; constructor.
  - apply Forall_cons_iff in Hl as [Hvb Hvr].
    unfold by_entry_date at 1, minus.
    destruct (entered env a) as [|x] eqn:Ea; [congruence|].
    destruct (entered env b) as [|y] eqn:Eb; [congruence|].
    cbn [gt]. destruct (Z.gtb_spec (y - x) 0) as [G|G].
    + constructor; [apply IH; assumption|].
      apply (Permutation_Forall (insert_perm (by_entry_date env) a rest)).
      constructor; [|exact Hb].
      exists y, x. repeat split; trivial. lia.
    + assert (Hab : newer_or_same env a b)
        by (exists x, y; repeat split; trivial; lia).
      constructor; [constructor; assumption|].
      constructor; [exact Hab|].
      eapply Forall_impl; [|exact Hb].
      intros c Hc. exact (newer_or_same_trans env a b c Hab Hc).
Qed.

Lemma sort_sorted env l :
  valid_dates env l ->
  StronglySorted (newer_or_same env) (Rims.sort (by_entry_date env) l).
Proof.
  induction l as [|a rest IH]; intros Hv; cbn; [constructor|].
  apply Forall_cons_iff in Hv as [Ha Hr].
  apply insert_sorted; [exact Ha | | apply IH; exact Hr].
  apply (Permutation_Forall (sort_perm (by_entry_date env) rest)). exact Hr.
Qed.

Lemma insert_filter env k a l :
  entered env a <> NaN ->
  valid_dates env l ->
  filter (entered_at env k) (Rims.insert (by_entry_date env) a l)
  = filter (entered_at env k) (a :: l).
Proof.
  intros Ha Hl. induction l as [|b rest IH]; [reflexivity|].
  apply Forall_cons_iff in Hl as [Hvb Hvr]. cbn [Rims.insert].
  unfold by_entry_date at 1, minus.
  destruct (entered env a) as [|x] eqn:Ea; [congruence|].
  destruct (entered env b) as [|y] eqn:Eb; [congruence|].
  cbn [gt]. destruct (Z.gtb_spec (y - x) 0) as [G|G]; [|reflexivity].
  assert (Pa : entered_at env k a = (x =? k))
    by (unfold entered_at; rewrite Ea; reflexivity).
  assert (Pb : entered_at env k b = (y =? k))
    by (unfold entered_at; rewrite Eb; reflexivity).
  cbn [filter]. rewrite (IH Hvr). cbn [filter]. rewrite Pa, Pb.
  destruct (Z.eqb_spec x k), (Z.eqb_spec y k); try reflexivity. lia.
Qed.

(** X21.  Sorting the matched records keeps every record, puts them in
    order of entry date, latest first, a record without entry date counting
    as entered at the epoch, and keeps records with the same entry date in
    the order the store returned them. *)
Theorem records_sorted_latest_first env l :
  valid_dates env l ->
  Permutation l (Rims.sort (by_entry_date env) l)
  /\ StronglySorted (newer_or_same env) (Rims.sort (by_entry_date env) l)
  /\ forall k,
       filter (entered_at env k) (Rims.sort (by_entry_date env) l)
       = filter (entered_at env k) l.
Proof.
  intros Hv. split; [apply sort_perm|]. split; [apply sort_sorted; exact Hv|].
  intros k. induction l as [|a rest IH]; [reflexivity|].
  apply Forall_cons_iff in Hv as [Ha Hr]. cbn [Rims.sort].
  rewrite insert_filter; trivial.
  - cbn [filter]. rewrite (IH Hr). reflexivity.
  - apply (Permutation_Forall (sort_perm (by_entry_date env) rest)). exact Hr.
Qed.

Lemma records_sorted_latest_first_witness :
  Rims.sort (by_entry_date env_utc) [e_undated; e_june; e_september]
  = [e_september; e_june; e_undated]
  /\ StronglySorted (newer_or_same env_utc)
       (Rims.sort (by_entry_date env_utc) [e_undated; e_june; e_september]).
Proof.
  split; [reflexivity|].
  apply (records_sorted_latest_first env_utc [e_undated; e_june; e_september]).
  repeat constructor; discriminate.
Defined.

(** ** Request handlers *)

Lemma not_in_destsel_reads w sent : ~ In (ToRims w) (map ToDestsel sent).
Proof.
  intros H. apply in_map_iff in H as [x [H _]]. discriminate.
Qed.

Lemma status_payload_reads env la st c code fallback with_type :
  exists sent,
    snd (status_payload env la st c code fallback with_type)
    = map ToDestsel sent
    /\ sent = snd (getPackageFromDestsel (destsel st) code).
Proof.
  unfold status_payload.
  destruct (getPackageFromDestsel (destsel st) code) as [pkg sent].
  exists sent. split; reflexivity.
Qed.

Lemma status_payload_status env la st c code fallback with_type :
  payload_status (fst (status_payload env la st c code fallback with_type))
  = determineStatus env (engine_fields c)
      (match fst (getPackageFromDestsel (destsel st) code) with
       | Some p => Some (info p)
       | None => None
       end).
Proof.
  unfold status_payload.
  destruct (getPackageFromDestsel (destsel st) code) as [pkg sent].
  reflexivity.
Qed.

Lemma customer_status_single env la st phone c :
  truthy_str (Some phone) = true ->
  rims st (phone_clause (cleanPhone (Some phone))) = Returned [c] ->
  customer_status env la st (Some phone)
  = (FoundStatus
       (fst (status_payload env la st c (pkg_code2 (engine_fields c)) phone
               true)),
     ToRims (phone_clause (cleanPhone (Some phone)))
     :: snd (status_payload env la st c (pkg_code2 (engine_fields c)) phone
               true)).
Proof.
  intros T R. unfold customer_status. rewrite T. cbn [negb]. cbv zeta.
  rewrite R. cbn [sort Rims.insert List.length Nat.ltb Nat.leb].
  destruct (status_payload _ _ _ _ _ _ _) as [payload sent]. reflexivity.
Qed.

(** X22.  Every filter that a lookup by phone sends to the customer table is
    [phn1='D' OR phn2='D'] with [D] the normalised phone, which holds digits
    only: nothing of the caller's text but digits reaches the filter.  This
    covers GET /api/customer/status, POST /api/rims/phone-lookup and the
    phone branch of POST /api/rims/customer-status. *)
Theorem phone_filters_hold_digits_only env la st phone w :
  (In (ToRims w) (snd (customer_status env la st phone))
   \/ In (ToRims w) (snd (phone_lookup env st phone))
   \/ exists code,
        In (ToRims w) (snd (rims_customer_status env la st None code phone))) ->
  w = phone_clause (cleanPhone phone)
  /\ digits_only (cleanPhone phone) = true.
Proof.
  intros H. split; [|apply cleanPhone_digits].
  destruct H as [H|[H|[code H]]].
  - unfold customer_status in H. destruct phone as [raw|]; [|destruct H].
    destruct (negb (truthy_str (Some raw))); [destruct H|]. cbv zeta in H.
    destruct (rims st _) as [[|f o]|e]; cbn [snd] in H;
      try (destruct H as [H|[]]; congruence).
    destruct (sort _ _) as [|m r]; cbn [snd] in H;
      try (destruct H as [H|[]]; congruence).
    destruct (_ <? _)%nat; cbn [snd] in H;
      try (destruct H as [H|[]]; congruence).
    destruct (status_payload_reads env la st m (pkg_code2 (engine_fields m))
                raw true) as [sent [E _]].
    destruct (status_payload _ _ _ _ _ _ _) as [payload reads].
    cbn [snd] in *. destruct H as [H|H]; [congruence|].
    rewrite E in H. destruct (not_in_destsel_reads _ _ H).
  - unfold phone_lookup in H.
    destruct (negb (truthy_str phone)); [destruct H|]. cbv zeta in H.
    destruct (rims st _) as [[|f o]|e]; cbn [snd] in H;
      try (destruct H as [H|[]]; congruence).
    destruct (sort _ _) as [|m r]; cbn [snd] in H;
      destruct H as [H|[]]; congruence.
  - unfold rims_customer_status in H. cbn [truthy_id negb andb] in H.
    destruct (negb (truthy_str phone)); [destruct H|].
    destruct (rims st _) as [[|f o]|e]; cbn [snd] in H;
      try (destruct H as [H|[]]; congruence).
    destruct (status_payload_reads env la st f (code_or f code) "" false)
      as [sent [E _]].
    destruct (status_payload _ _ _ _ _ _ _) as [payload reads].
    cbn [snd] in *. destruct H as [H|H]; [congruence|].
    rewrite E in H. destruct (not_in_destsel_reads _ _ H).
Qed.

Lemma phone_filters_hold_digits_only_witness :
  "phn1='8055551234' OR phn2='8055551234'"
  = phone_clause (cleanPhone (Some "+1 (805) 555-1234"))
  /\ digits_only (cleanPhone (Some "+1 (805) 555-1234")) = true.
Proof.
  apply (phone_filters_hold_digits_only env_utc los_angeles_2026
           (store_of [e_june; e_september]) (Some "+1 (805) 555-1234")).
  left. left. reflexivity.
Defined.

(** X23.  When the phone matches exactly one record, GET
    /api/customer/status answers with the status that [determineStatus]
    gives for that record and the package found under the record's package
    code; a package read that throws, or finds nothing, does not fail the
    request: the status is then computed with no package info. *)
Theorem single_record_gets_status env la st phone c :
  truthy_str (Some phone) = true ->
  rims st (phone_clause (cleanPhone (Some phone))) = Returned [c] ->
  found_status (fst (customer_status env la st (Some phone)))
  = Some (determineStatus env (engine_fields c)
            (match fst (getPackageFromDestsel (destsel st)
                          (pkg_code2 (engine_fields c))) with
             | Some p => Some (info p)
             | None => None
             end))
  /\ (forall code,
        pkg_code2 (engine_fields c) = Some code ->
        (exists e, destsel st (package_clause (toUpperCase code)) = Threw e)
        \/ destsel st (package_clause (toUpperCase code)) = Returned [] ->
        found_status (fst (customer_status env la st (Some phone)))
        = Some (determineStatus env (engine_fields c) None)).
Proof.
  intros T R. rewrite (customer_status_single env la st phone c T R).
  cbn [fst found_status]. rewrite status_payload_status.
  split; [reflexivity|].
  intros code Hc Hd. rewrite Hc. unfold getPackageFromDestsel.
  destruct (negb (truthy_str (Some code))); [reflexivity|]. cbv zeta.
  destruct Hd as [[e ->]| ->]; reflexivity.
Qed.

Lemma single_record_gets_status_witness :
  found_status
    (fst (customer_status env_utc los_angeles_2026 (store_of [e_june])
            (Some "805-555-1234")))
  = Some (determineStatus env_utc (engine_fields e_june) None).
Proof.
  destruct (single_record_gets_status env_utc los_angeles_2026
              (store_of [e_june]) "805-555-1234" e_june) as [_ H];
    [reflexivity | reflexivity |].
  apply (H "em"); [reflexivity|].
  left. exists (QueryFailed 500). reflexivity.
Defined.

(** X24.  When the phone matches several records, GET /api/customer/status
    computes no status and reads no package: it asks for verification,
    counts the records, lists all of them latest entry first, numbered from
    0, and names the latest as most recent. *)
Theorem several_records_need_verification env la st phone first second others :
  truthy_str (Some phone) = true ->
  rims st (phone_clause (cleanPhone (Some phone)))
  = Returned (first :: second :: others) ->
  valid_dates env (first :: second :: others) ->
  exists v top rest,
    customer_status env la st (Some phone)
    = (VerificationNeeded v,
       [ToRims (phone_clause (cleanPhone (Some phone)))])
    /\ record_count v = List.length (first :: second :: others)
    /\ Permutation (first :: second :: others) (top :: rest)
    /\ StronglySorted (newer_or_same env) (top :: rest)
    /\ all_records v = summaries 0 (top :: rest)
    /\ most_recent_vac_id v = vac_id top
    /\ most_recent_pkg_code2 v = pkg_code2 (engine_fields top)
    /\ most_recent_destination v = dest top
    /\ (forall a, In a (first :: second :: others) -> newer_or_same env top a).
Proof.
  intros T R V. unfold customer_status. rewrite T. cbn [negb]. cbv zeta.
  rewrite R.
  pose proof (sort_perm (by_entry_date env) (first :: second :: others)) as P.
  pose proof (sort_sorted env (first :: second :: others) V) as S.
  pose proof (sort_length (by_entry_date env) (first :: second :: others)) as L.
  destruct (sort (by_entry_date env) (first :: second :: others))
    as [|top rest]; [discriminate|].
  assert (Hlen : (1 <? List.length (top :: rest))%nat = true).
  { rewrite L. reflexivity. }
  rewrite Hlen.
  eexists. exists top, rest. split; [reflexivity|].
  cbn [record_count all_records most_recent_vac_id most_recent_pkg_code2
       most_recent_destination verification].
  repeat split; trivial.
  intros a Ha. apply (Permutation_in _ P) in Ha.
  apply StronglySorted_inv in S as [_ F].
  destruct Ha as [<-|Ha].
  - assert (Hv : entered env top <> NaN).
    { unfold valid_dates in V. rewrite Forall_forall in V. apply V.
      apply (Permutation_in _ (Permutation_sym P)). left; reflexivity. }
    destruct (entered env top) as [|x] eqn:E; [congruence|].
    exists x, x. repeat split; trivial. lia.
  - rewrite Forall_forall in F. apply F. exact Ha.
Qed.

Lemma several_records_need_verification_witness :
  exists v top rest,
    customer_status env_utc los_angeles_2026
      (store_of [e_june; e_september; e_undated]) (Some "805-555-1234")
    = (VerificationNeeded v,
       [ToRims (phone_clause (cleanPhone (Some "805-555-1234")))])
    /\ record_count v = 3%nat
    /\ Permutation [e_june; e_september; e_undated] (top :: rest)
    /\ StronglySorted (newer_or_same env_utc) (top :: rest)
    /\ all_records v = summaries 0 (top :: rest)
    /\ most_recent_vac_id v = vac_id top
    /\ most_recent_pkg_code2 v = pkg_code2 (engine_fields top)
    /\ most_recent_destination v = dest top
    /\ (forall a, In a [e_june; e_september; e_undated] ->
                  newer_or_same env_utc top a).
Proof.
  apply (several_records_need_verification env_utc los_angeles_2026
           (store_of [e_june; e_september; e_undated]) "805-555-1234"
           e_june e_september [e_undated]);
    [reflexivity | reflexivity | repeat constructor; discriminate].
Defined.

(** X25.  A package read happens only on the way to a found status: in GET
    /api/customer/status the customer table is read at most once, before
    anything else, the package table at most once and only when the answer
    is a found status; without a phone nothing is read at all. *)
Theorem customer_status_reads env la st phone :
  (truthy_str phone = false ->
   customer_status env la st phone = (NoPhoneProvided, []))
  /\ (forall w,
        In (ToDestsel w) (snd (customer_status env la st phone)) ->
        exists payload,
          fst (customer_status env la st phone) = FoundStatus payload)
  /\ (exists head sent,
        snd (customer_status env la st phone)
        = (head ++ map ToDestsel sent)%list
        /\ (head = [] \/ head = [ToRims (phone_clause (cleanPhone phone))])
        /\ (List.length sent <= 1)%nat).
Proof.
  unfold customer_status. destruct phone as [raw|].
  2:{ repeat split; try (intros w []).
      exists [], []. repeat split; [left; reflexivity | cbn; lia]. }
  destruct (truthy_str (Some raw)) eqn:T; cbn [negb].
  2:{ repeat split; try (intros w []).
      exists [], []. repeat split; [left; reflexivity | cbn; lia]. }
  cbv zeta. split; [discriminate|].
  pose (simple := fun (r : StatusResponse) =>
          exists head sent,
            [ToRims (phone_clause (cleanPhone (Some raw)))]
            = (head ++ map ToDestsel sent)%list
            /\ (head = [] \/ head = [ToRims (phone_clause (cleanPhone (Some raw)))])
            /\ (List.length sent <= 1)%nat).
  assert (One : forall r, simple r).
  { intros r. exists [ToRims (phone_clause (cleanPhone (Some raw)))], [].
    repeat split; [right; reflexivity | cbn; lia]. }
  destruct (rims st _) as [[|f o]|e]; cbn [fst snd];
    try (split; [intros w [H|[]]; discriminate | exact (One NoPhoneProvided)]).
  destruct (sort _ _) as [|m r]; cbn [fst snd];
    try (split; [intros w [H|[]]; discriminate | exact (One NoPhoneProvided)]).
  destruct (_ <? _)%nat; cbn [fst snd];
    try (split; [intros w [H|[]]; discriminate | exact (One NoPhoneProvided)]).
  destruct (status_payload_reads env la st m (pkg_code2 (engine_fields m))
              raw true) as [sent [E Es]].
  destruct (status_payload _ _ _ _ _ _ _) as [payload reads].
  cbn [fst snd] in *. split.
  - intros w _. exists payload. reflexivity.
  - exists [ToRims (phone_clause (cleanPhone (Some raw)))], sent.
    rewrite E. repeat split; [right; reflexivity|].
    rewrite Es. apply lookup_reads_at_most_one.
Qed.

Lemma customer_status_reads_witness :
  customer_status env_utc los_angeles_2026 (store_of [e_june]) (Some "")
  = (NoPhoneProvided, []).
Proof.
  apply (customer_status_reads env_utc los_angeles_2026 (store_of [e_june])
           (Some "")).
  reflexivity.
Defined.

Lemma lookup_without_code d code :
  truthy_str code = false -> getPackageFromDestsel d code = (None, []).
Proof.
  intros H. unfold getPackageFromDestsel. destruct code as [s|]; [|reflexivity].
  rewrite H. reflexivity.
Qed.

Lemma by_id_response_status env la st c code fallback with_type :
  response_status
    (IdFound (fst (status_payload env la st c code fallback with_type)))
  = Some (determineStatus env (engine_fields c)
            (match fst (getPackageFromDestsel (destsel st) code) with
             | Some p => Some (info p)
             | None => None
             end)).
Proof. cbn [response_status]. rewrite status_payload_status. reflexivity. Qed.

Lemma status_payload_pair env la st c code fallback with_type :
  status_payload env la st c code fallback with_type
  = (fst (status_payload env la st c code fallback with_type),
     map ToDestsel (snd (getPackageFromDestsel (destsel st) code))).
Proof.
  unfold status_payload.
  destruct (getPackageFromDestsel (destsel st) code) as [pkg sent].
  reflexivity.
Qed.

(** X26.  For a phone matched by exactly one record, GET
    /api/customer/status and the phone branch of POST
    /api/rims/customer-status report the same status result, provided the
    record carries a package code or the request gives none. *)
Theorem phone_endpoints_agree_on_single_record env la st phone c code :
  truthy_str (Some phone) = true ->
  rims st (phone_clause (cleanPhone (Some phone))) = Returned [c] ->
  truthy_str (pkg_code2 (engine_fields c)) = true \/ truthy_str code = false ->
  found_status (fst (customer_status env la st (Some phone)))
  = response_status
      (fst (rims_customer_status env la st None code (Some phone))).
Proof.
  intros T R H. rewrite (customer_status_single env la st phone c T R).
  cbn [fst found_status]. rewrite status_payload_status.
  unfold rims_customer_status. cbn [truthy_id negb andb]. rewrite T.
  cbn [negb]. rewrite R.
  rewrite (status_payload_pair env la st c (code_or c code) "" false).
  cbn [fst]. rewrite by_id_response_status. unfold code_or.
  destruct (truthy_str (pkg_code2 (engine_fields c))) eqn:E; [reflexivity|].
  destruct H as [H|H]; [discriminate|].
  rewrite (lookup_without_code _ _ E), (lookup_without_code _ _ H).
  reflexivity.
Qed.

Lemma phone_endpoints_agree_on_single_record_witness :
  found_status
    (fst (customer_status env_utc los_angeles_2026 (store_of [e_june])
            (Some "805-555-1234")))
  = response_status
      (fst (rims_customer_status env_utc los_angeles_2026 (store_of [e_june])
              None (Some "ECRA") (Some "805-555-1234"))).
Proof.
  apply (phone_endpoints_agree_on_single_record env_utc los_angeles_2026
           (store_of [e_june]) "805-555-1234" e_june (Some "ECRA"));
    [reflexivity | reflexivity | left; reflexivity].
Defined.

(** X27.  In POST /api/customer/status-by-id the package code of the request
    is a fallback only: when the record found carries a package code of its
    own, the answer and the reads are the same whatever code the request
    gives. *)
Theorem record_code_takes_precedence env la st v code1 code2 :
  (forall c rest,
     rims st (id_clause v) = Returned (c :: rest) ->
     truthy_str (pkg_code2 (engine_fields c)) = true) ->
  status_by_id env la st (Some v) code1 = status_by_id env la st (Some v) code2.
Proof.
  intros H. unfold status_by_id.
  destruct (negb (truthy_id (Some v))); [reflexivity|]. cbv zeta.
  destruct (rims st (id_clause v)) as [[|c rest]|e] eqn:R; try reflexivity.
  unfold code_or. rewrite (H c rest eq_refl). reflexivity.
Qed.

Lemma record_code_takes_precedence_witness :
  status_by_id env_utc los_angeles_2026 (store_of [e_june])
    (Some (IdNumber 101)) (Some "ECRA")
  = status_by_id env_utc los_angeles_2026 (store_of [e_june])
      (Some (IdNumber 101)) None.
Proof.
  apply (record_code_takes_precedence env_utc los_angeles_2026
           (store_of [e_june]) (IdNumber 101) (Some "ECRA") None).
  intros c rest H. injection H as <- _. reflexivity.
Defined.

(** X28.  The two lookups by account identifier agree: for a request with a
    usable [vac_id], POST /api/customer/status-by-id and POST
    /api/rims/customer-status send the same reads and report the same status
    result, whatever phone number the second request also carries. *)
Theorem by_id_endpoints_agree env la st v code phone :
  truthy_id (Some v) = true ->
  snd (status_by_id env la st (Some v) code)
  = snd (rims_customer_status env la st (Some v) code phone)
  /\ response_status (fst (status_by_id env la st (Some v) code))
     = response_status (fst (rims_customer_status env la st (Some v) code phone)).
Proof.
  intros T. unfold status_by_id, rims_customer_status. rewrite T.
  cbn [negb andb]. cbv zeta.
  destruct (rims st (id_clause v)) as [[|c rest]|e];
    try (split; reflexivity).
  rewrite (status_payload_pair env la st c (code_or c code) "" true),
    (status_payload_pair env la st c (code_or c code) "" false).
  cbn [fst snd]. split; [reflexivity|].
  rewrite !by_id_response_status. reflexivity.
Qed.

Lemma by_id_endpoints_agree_witness :
  response_status
    (fst (status_by_id env_utc los_angeles_2026 (store_of [e_june])
            (Some (IdString "101")) None))
  = response_status
      (fst (rims_customer_status env_utc los_angeles_2026 (store_of [e_june])
              (Some (IdString "101")) None (Some "805-555-1234"))).
Proof.
  apply (by_id_endpoints_agree env_utc los_angeles_2026 (store_of [e_june])
           (IdString "101") None (Some "805-555-1234")).
  reflexivity.
Defined.

(** X29.  POST /api/rims/phone-lookup, when the phone matches records with
    valid entry dates, answers with the latest entered record as the
    customer and lists every matched record, latest entry first; it reads
    the customer table once and the package table never. *)
Theorem phone_lookup_latest_first env st phone first others :
  truthy_str (Some phone) = true ->
  rims st (phone_clause (cleanPhone (Some phone))) = Returned (first :: others) ->
  valid_dates env (first :: others) ->
  exists top rest,
    phone_lookup env st (Some phone)
    = (PhoneFound (lookup_record top) (phn1 top)
         (map lookup_record (top :: rest)),
       [ToRims (phone_clause (cleanPhone (Some phone)))])
    /\ Permutation (first :: others) (top :: rest)
    /\ StronglySorted (newer_or_same env) (top :: rest)
    /\ (forall a, In a (first :: others) -> newer_or_same env top a).
Proof.
  intros T R V. unfold phone_lookup. rewrite T. cbn [negb]. cbv zeta.
  rewrite R.
  pose proof (sort_perm (by_entry_date env) (first :: others)) as P.
  pose proof (sort_sorted env (first :: others) V) as S.
  pose proof (sort_length (by_entry_date env) (first :: others)) as L.
  destruct (sort (by_entry_date env) (first :: others)) as [|top rest];
    [discriminate|].
  exists top, rest. repeat split; trivial.
  intros a Ha. apply (Permutation_in _ P) in Ha.
  apply StronglySorted_inv in S as [_ F].
  destruct Ha as [<-|Ha].
  - assert (Hv : entered env top <> NaN).
    { unfold valid_dates in V. rewrite Forall_forall in V. apply V.
      apply (Permutation_in _ (Permutation_sym P)). left; reflexivity. }
    destruct (entered env top) as [|x] eqn:E; [congruence|].
    exists x, x. repeat split; trivial. lia.
  - rewrite Forall_forall in F. apply F. exact Ha.
Qed.

Lemma phone_lookup_latest_first_witness :
  exists top rest,
    phone_lookup env_utc (store_of [e_undated; e_september; e_june])
      (Some "805-555-1234")
    = (PhoneFound (lookup_record top) (phn1 top)
         (map lookup_record (top :: rest)),
       [ToRims (phone_clause (cleanPhone (Some "805-555-1234")))])
    /\ Permutation [e_undated; e_september; e_june] (top :: rest)
    /\ StronglySorted (newer_or_same env_utc) (top :: rest)
    /\ (forall a, In a [e_undated; e_september; e_june] ->
                  newer_or_same env_utc top a).
Proof.
  apply (phone_lookup_latest_first env_utc
           (store_of [e_undated; e_september; e_june]) "805-555-1234"
           e_undated [e_september; e_june]);
    [reflexivity | reflexivity | repeat constructor; discriminate].
Defined.

(** ** Names *)

Lemma trimStart_empty s : trimStart s = "" <-> blank_string s = true.
Proof.
  unfold blank_string. induction s as [|ch r IH]; cbn; [tauto|].
  destruct (is_ws ch); cbn; [exact IH|]. split; discriminate.
Qed.

Lemma trimStart_blank s : blank_string (trimStart s) = blank_string s.
Proof.
  unfold blank_string. induction s as [|ch r IH]; cbn; [reflexivity|].
  destruct (is_ws ch) eqn:W; cbn; [exact IH|]. rewrite W. reflexivity.
Qed.

Lemma trimEnd_empty s : trimEnd s = "" <-> blank_string s = true.
Proof.
  unfold blank_string. induction s as [|ch r IH]; cbn; [tauto|].
  destruct (is_ws ch); cbn.
  - destruct (String.eqb_spec (trimEnd r) "") as [E|E].
    + split; [intros _; apply IH; exact E | reflexivity].
    + split; [discriminate|]. intros H. apply IH in H. contradiction.
  - split; discriminate.
Qed.

Lemma trim_empty s : trim s = "" <-> blank_string s = true.
Proof. unfold trim. rewrite trimEnd_empty, trimStart_blank. tauto. Qed.

Lemma blank_string_app a b :
  blank_string (a ++ b) = blank_string a && blank_string b.
Proof.
  unfold blank_string. induction a as [|ch r IH]; cbn; [reflexivity|].
  rewrite IH. apply andb_assoc.
Qed.


